(** * Function portal: configuration store, execution recorder and call executor

    Shallow embedding of [app/models.py] and [app/services.py].

    - Python [str] is modelled as [string] (ASCII characters); slicing
      [s[:n]] is [str_take n s] and [str.upper] is [str_upper] (ASCII).
    - [datetime.utcnow()] reads a clock (microseconds since the epoch);
      each call consumes one reading, in program order.
    - The database is two tables keyed by their integer primary key,
      with SQLite-style row id counters.
    - The shared [httpx.AsyncClient] is the world's [transport]: for a
      request it either returns a response or raises an exception.  Every
      request handed to it is appended to the [sent] trace.
    - Python exceptions are the [PyExc] values of a small state and
      exception monad [M]. *)

From Stdlib Require Import ZArith QArith Ascii String List Lia.
From stdpp Require Import base gmap strings list sorting pretty.

#[local] Set Warnings "-register-all -abstract-large-number".

Local Open Scope string_scope.
Local Open Scope Z_scope.
Local Open Scope list_scope.

(** ** Python strings *)

(** [s[:n]] *)
Fixpoint str_take (n : nat) (s : string) : string :=
  match n, s with
  | O, _ => EmptyString
  | S _, EmptyString => EmptyString
  | S n', String c s' => String c (str_take n' s')
  end.

Definition ascii_upper (c : ascii) : ascii :=
  let n := nat_of_ascii c in
  if (97 <=? n)%nat && (n <=? 122)%nat then ascii_of_nat (n - 32) else c.

(** [s.upper()] *)
Fixpoint str_upper (s : string) : string :=
  match s with
  | EmptyString => EmptyString
  | String c s' => String (ascii_upper c) (str_upper s')
  end.

(** [pat in s] *)
Fixpoint str_contains (pat s : string) : bool :=
  String.prefix pat s ||
  match s with
  | EmptyString => false
  | String _ s' => str_contains pat s'
  end.

(** ** Data model ([app/models.py]) *)

(** JSON values stored in the [payload] columns. *)
Inductive json :=
| JNull
| JBool (b : bool)
| JNumber (z : Z)
| JString (s : string)
| JArray (xs : list json)
| JObject (kvs : list (string * json)).

(** [Dict[str, str]] *)
Abbreviation Headers := (gmap string string).
(** [Dict[str, Any]] *)
Abbreviation Payload := (list (string * json)).

Inductive CallStatus := PENDING | RUNNING | SUCCESS | FAILED | TIMEOUT.

#[global] Instance CallStatus_eq_dec : EqDecision CallStatus.
Proof. solve_decision. Defined.

Definition is_terminal (st : CallStatus) : bool :=
  match st with
  | SUCCESS | FAILED | TIMEOUT => true
  | PENDING | RUNNING => false
  end.

Module FunctionConfig.
Record t := mk {
  id : option Z;
  name : string;
  description : string;
  endpoint_url : string;
  http_method : string;
  headers : Headers;
  payload : Payload;
  timeout_seconds : Z;
  is_active : bool;
  button_color : string;
  display_order : Z;
  created_at : Z;
  updated_at : Z
}.
End FunctionConfig.

Module FunctionExecution.
Record t := mk {
  id : option Z;
  function_config_id : Z;
  status : CallStatus;
  started_at : Z;
  completed_at : option Z;
  duration_ms : option Z;
  request_url : string;
  request_method : string;
  request_headers : Headers;
  request_payload : Payload;
  response_status_code : option Z;
  response_headers : Headers;
  response_body : string;
  error_message : string
}.
End FunctionExecution.

(** [FunctionConfigCreate]: the validated input schema. *)
Module FunctionConfigCreate.
Record t := mk {
  name : string;
  description : string;
  endpoint_url : string;
  http_method : string;
  headers : Headers;
  payload : Payload;
  timeout_seconds : Z;
  is_active : bool;
  button_color : string;
  display_order : Z
}.

(** The pydantic field constraints of the schema: [max_length] on the
    strings and [ge=1, le=300] on [timeout_seconds].  The result lists
    the offending fields; constructing the schema raises a
    [ValidationError] when it is not empty. *)
Definition validation_errors (d : t) : list string :=
  (if (String.length (name d) <=? 100)%nat then [] else ["name"]) ++
  (if (String.length (description d) <=? 500)%nat then [] else ["description"]) ++
  (if (String.length (endpoint_url d) <=? 500)%nat then [] else ["endpoint_url"]) ++
  (if (String.length (http_method d) <=? 10)%nat then [] else ["http_method"]) ++
  (if (1 <=? timeout_seconds d) && (timeout_seconds d <=? 300) then []
   else ["timeout_seconds"]) ++
  (if (String.length (button_color d) <=? 20)%nat then [] else ["button_color"]).
End FunctionConfigCreate.

Module ExecutionSummary.
Record t := mk {
  id : Z;
  function_name : string;
  status : CallStatus;
  started_at : Z;
  completed_at : option Z;
  duration_ms : option Z;
  response_status_code : option Z;
  success : bool
}.
End ExecutionSummary.

(** ** Database, HTTP transport, clock *)

Record Db := mkDb {
  function_configs : gmap Z FunctionConfig.t;
  function_executions : gmap Z FunctionExecution.t;
  config_rowid : Z;
  execution_rowid : Z
}.

Record HttpRequest := mkRequest {
  rq_method : string;
  rq_url : string;
  rq_headers : Headers;
  rq_json : option Payload;
  rq_timeout : Z
}.

Record HttpResponse := mkResponse {
  status_code : Z;
  resp_headers : Headers;
  text : string
}.

(** Python exceptions; the string is [str(e)]. *)
Inductive PyExc :=
| ValueError (msg : string)
| ValidationError (fields : list string)
| TimeoutException (msg : string)
| HTTPStatusError (msg : string) (response : HttpResponse)
| TransportError (msg : string)
| IntegrityError (msg : string)
| InvalidRequestError (msg : string).

Definition py_str (e : PyExc) : string :=
  match e with
  | ValueError m | TimeoutException m | HTTPStatusError m _
  | TransportError m | IntegrityError m | InvalidRequestError m => m
  | ValidationError _ => "validation error for FunctionConfigCreate"
  end.

Record World := mkWorld {
  transport : HttpRequest -> HttpResponse + PyExc;
  clock : nat -> Z
}.

Record State := mkState {
  db : Db;
  ticks : nat;
  sent : list HttpRequest
}.

(** ** The state and exception monad *)

Definition M (A : Type) : Type := World -> State -> State * (PyExc + A).

Definition ret {A} (x : A) : M A := fun _ s => (s, inr x).

Definition bind {A B} (m : M A) (k : A -> M B) : M B :=
  fun w s =>
    match m w s with
    | (s', inl e) => (s', inl e)
    | (s', inr x) => k x w s'
    end.

Notation "'let*' x := m 'in' k" := (bind m (fun x => k))
  (at level 200, x name, m at level 100, k at level 200).

Definition raise {A} (e : PyExc) : M A := fun _ s => (s, inl e).

(** [try: m except ...: h] *)
Definition try_except {A} (m : M A) (h : PyExc -> M A) : M A :=
  fun w s =>
    match m w s with
    | (s', inl e) => h e w s'
    | (s', inr x) => (s', inr x)
    end.

(** [datetime.utcnow()] *)
Definition utcnow : M Z :=
  fun w s => (mkState (db s) (S (ticks s)) (sent s), inr (clock w (ticks s))).

Definition modify_db (f : Db -> Db) : M unit :=
  fun _ s => (mkState (f (db s)) (ticks s) (sent s), inr tt).

(** [session.get(FunctionConfig, k)] *)
Definition session_get_config (k : Z) : M (option FunctionConfig.t) :=
  fun _ s => (s, inr (function_configs (db s) !! k)).

(** [session.get(FunctionExecution, k)] *)
Definition session_get_execution (k : Z) : M (option FunctionExecution.t) :=
  fun _ s => (s, inr (function_executions (db s) !! k)).

(** [session.add(execution); session.commit()] on an existing row. *)
Definition session_put_execution (k : Z) (e : FunctionExecution.t) : M unit :=
  modify_db (fun d => mkDb (function_configs d) (<[k:=e]> (function_executions d))
                           (config_rowid d) (execution_rowid d)).

Definition with_execution_id (k : Z) (e : FunctionExecution.t) : FunctionExecution.t :=
  FunctionExecution.mk (Some k) (FunctionExecution.function_config_id e)
    (FunctionExecution.status e) (FunctionExecution.started_at e)
    (FunctionExecution.completed_at e) (FunctionExecution.duration_ms e)
    (FunctionExecution.request_url e) (FunctionExecution.request_method e)
    (FunctionExecution.request_headers e) (FunctionExecution.request_payload e)
    (FunctionExecution.response_status_code e) (FunctionExecution.response_headers e)
    (FunctionExecution.response_body e) (FunctionExecution.error_message e).

(** [session.add(execution); session.commit(); session.refresh(execution)]
    on a new row: the database assigns the next row id. *)
Definition session_add_execution (e : FunctionExecution.t) : M FunctionExecution.t :=
  fun _ s =>
    let d := db s in
    let k := execution_rowid d + 1 in
    let e' := with_execution_id k e in
    (mkState (mkDb (function_configs d) (<[k:=e']> (function_executions d))
                   (config_rowid d) k) (ticks s) (sent s), inr e').

(** [session.refresh(execution)] for a row loaded earlier. *)
Definition session_refresh_execution (k : Z) : M FunctionExecution.t :=
  let* e := session_get_execution k in
  match e with
  | Some e => ret e
  | None => raise (InvalidRequestError "Could not refresh instance")
  end.

(** [await self.client.get/post/put/delete(...)] *)
Definition client_request (req : HttpRequest) : M HttpResponse :=
  fun w s =>
    (mkState (db s) (ticks s) (sent s ++ [req]),
     match transport w req with
     | inl r => inr r
     | inr e => inl e
     end).

(** ** [FunctionExecutionService] ([app/services.py]) *)

(** The row built by [FunctionExecution(...)] in [execute_function]: the
    request fields are taken from the configuration, the response and error
    fields keep their defaults. *)
Definition new_execution (config_id : Z) (started_at : Z) (config : FunctionConfig.t)
  : FunctionExecution.t :=
  FunctionExecution.mk None config_id RUNNING started_at None None
    (FunctionConfig.endpoint_url config) (FunctionConfig.http_method config)
    (FunctionConfig.headers config) (FunctionConfig.payload config)
    None ∅ "" "".

(** The field assignments of the success branch of [_execute_api_call]. *)
Definition record_success (e : FunctionExecution.t) (end_time duration_ms : Z)
  (response : HttpResponse) : FunctionExecution.t :=
  FunctionExecution.mk (FunctionExecution.id e) (FunctionExecution.function_config_id e)
    SUCCESS (FunctionExecution.started_at e) (Some end_time) (Some duration_ms)
    (FunctionExecution.request_url e) (FunctionExecution.request_method e)
    (FunctionExecution.request_headers e) (FunctionExecution.request_payload e)
    (Some (status_code response)) (resp_headers response)
    (str_take 10000 (text response)) (FunctionExecution.error_message e).

(** The field assignments of [_mark_execution_failed]. *)
Definition record_failure (e : FunctionExecution.t) (status : CallStatus)
  (completed_at : Z) (error_message : string) (duration_ms : Z) : FunctionExecution.t :=
  FunctionExecution.mk (FunctionExecution.id e) (FunctionExecution.function_config_id e)
    status (FunctionExecution.started_at e) (Some completed_at) (Some duration_ms)
    (FunctionExecution.request_url e) (FunctionExecution.request_method e)
    (FunctionExecution.request_headers e) (FunctionExecution.request_payload e)
    (FunctionExecution.response_status_code e) (FunctionExecution.response_headers e)
    (FunctionExecution.response_body e) error_message.

(** [int((end - start).total_seconds() * 1000)]: truncation toward zero. *)
Definition elapsed_ms (start_time end_time : Z) : Z := Z.quot (end_time - start_time) 1000.

(** [json=config.payload if config.payload else None] *)
Definition json_body (payload : Payload) : option Payload :=
  match payload with
  | [] => None
  | _ => Some payload
  end.

(** The [match method] of [_execute_api_call]: the request each supported
    method sends, [None] for the [case _] branch. *)
Definition prepare_request (method : string) (config : FunctionConfig.t) : option HttpRequest :=
  let url := FunctionConfig.endpoint_url config in
  (* config.headers.copy() if config.headers else {} *)
  let headers := FunctionConfig.headers config in
  let timeout := FunctionConfig.timeout_seconds config in
  if String.eqb method "GET" then Some (mkRequest "GET" url headers None timeout)
  else if String.eqb method "POST" then
    Some (mkRequest "POST" url headers (json_body (FunctionConfig.payload config)) timeout)
  else if String.eqb method "PUT" then
    Some (mkRequest "PUT" url headers (json_body (FunctionConfig.payload config)) timeout)
  else if String.eqb method "DELETE" then Some (mkRequest "DELETE" url headers None timeout)
  else None.

Definition mark_execution_failed (execution_id : Z) (error_message : string)
  (status : CallStatus) : M unit :=
  let* execution := session_get_execution execution_id in
  match execution with
  | None => ret tt
  | Some e =>
      let* completed_at := utcnow in
      (* [if execution.started_at:] a datetime is always truthy *)
      let* now := utcnow in
      session_put_execution execution_id
        (record_failure e status completed_at (str_take 1000 error_message)
           (elapsed_ms (FunctionExecution.started_at e) now))
  end.

(** The handlers of [_execute_api_call], in their order. *)
Definition api_call_handler (execution_id : Z) (exc : PyExc) : M unit :=
  match exc with
  | TimeoutException _ => mark_execution_failed execution_id "Request timed out" TIMEOUT
  | HTTPStatusError _ r =>
      mark_execution_failed execution_id
        ("HTTP " +:+ pretty (status_code r) +:+ ": " +:+ str_take 500 (text r)) FAILED
  | e => mark_execution_failed execution_id (py_str e) FAILED
  end.

Definition execute_api_call (execution_id : Z) (config : FunctionConfig.t) : M unit :=
  let* start_time := utcnow in
  try_except
    (let method := str_upper (FunctionConfig.http_method config) in
     let* response :=
       match prepare_request method config with
       | Some req => client_request req
       | None => raise (ValueError ("Unsupported HTTP method: " +:+ method))
       end in
     let* end_time := utcnow in
     let duration_ms := elapsed_ms start_time end_time in
     let* execution := session_get_execution execution_id in
     match execution with
     | Some e => session_put_execution execution_id
                   (record_success e end_time duration_ms response)
     | None => ret tt
     end)
    (api_call_handler execution_id).

Definition execute_function (config_id : Z) : M FunctionExecution.t :=
  let* config := session_get_config config_id in
  match config with
  | None => raise (ValueError ("Function configuration " +:+ pretty config_id +:+ " not found"))
  | Some config =>
      let* started_at := utcnow in
      let* execution := session_add_execution (new_execution config_id started_at config) in
      match FunctionExecution.id execution with
      | None => raise (ValueError "Failed to create execution record")
      | Some execution_id =>
          let* _ := execute_api_call execution_id config in
          session_refresh_execution execution_id
      end
  end.

(** ** [FunctionConfigService] ([app/services.py]) *)

(** [FunctionConfig] built from [config_data.model_dump()] with its two
    [default_factory=datetime.utcnow] timestamps, then
    [config.updated_at = datetime.utcnow()]. *)
Definition create (config_data : FunctionConfigCreate.t) : M FunctionConfig.t :=
  let* created_at := utcnow in
  let* default_updated_at := utcnow in
  let* updated_at := utcnow in
  fun _ s =>
    let d := db s in
    let k := config_rowid d + 1 in
    let config :=
      FunctionConfig.mk (Some k) (FunctionConfigCreate.name config_data)
        (FunctionConfigCreate.description config_data)
        (FunctionConfigCreate.endpoint_url config_data)
        (FunctionConfigCreate.http_method config_data)
        (FunctionConfigCreate.headers config_data)
        (FunctionConfigCreate.payload config_data)
        (FunctionConfigCreate.timeout_seconds config_data)
        (FunctionConfigCreate.is_active config_data)
        (FunctionConfigCreate.button_color config_data)
        (FunctionConfigCreate.display_order config_data)
        created_at updated_at in
    (mkState (mkDb (<[k:=config]> (function_configs d)) (function_executions d)
                   k (execution_rowid d)) (ticks s) (sent s), inr config).

(** A caller's [FunctionConfigService.create(FunctionConfigCreate(...))]:
    building the schema runs its validation first. *)
Definition create_from_input (config_data : FunctionConfigCreate.t) : M FunctionConfig.t :=
  match FunctionConfigCreate.validation_errors config_data with
  | [] => create config_data
  | errs => raise (ValidationError errs)
  end.

Definition references (config_id : Z) (d : Db) : bool :=
  existsb (fun '(_, e) => bool_decide (FunctionExecution.function_config_id e = config_id))
    (map_to_list (function_executions d)).

(** [session.delete(config); session.commit()].  [FunctionConfig.executions]
    is a relationship without a delete cascade, so the flush sets the
    [function_config_id] of the referencing rows to NULL, which the
    NOT NULL column refuses; the transaction is rolled back. *)
Definition delete (config_id : Z) : M bool :=
  let* config := session_get_config config_id in
  match config with
  | None => ret false
  | Some _ =>
      fun w s =>
        if references config_id (db s) then
          raise (IntegrityError
                   "NOT NULL constraint failed: function_executions.function_config_id") w s
        else
          (mkState (mkDb (delete config_id (function_configs (db s)))
                         (function_executions (db s)) (config_rowid (db s))
                         (execution_rowid (db s))) (ticks s) (sent s), inr true)
  end.

(** [order_by(asc(display_order), asc(name))] *)
Definition config_order (c1 c2 : FunctionConfig.t) : Prop :=
  FunctionConfig.display_order c1 < FunctionConfig.display_order c2 \/
  (FunctionConfig.display_order c1 = FunctionConfig.display_order c2 /\
   String.le (FunctionConfig.name c1) (FunctionConfig.name c2)).

#[global] Instance config_order_dec : RelDecision config_order.
Proof. intros c1 c2. unfold config_order. apply _. Defined.

(** [select(FunctionConfig).where(is_active).order_by(...)] over the rows
    of the table. *)
Definition get_all_active (d : Db) : list FunctionConfig.t :=
  merge_sort config_order
    (filter (fun c => FunctionConfig.is_active c = true)
       (snd <$> map_to_list (function_configs d))).

(** [order_by(desc(FunctionExecution.started_at))] on the joined rows. *)
Definition newest_first (r1 r2 : FunctionExecution.t * string) : Prop :=
  FunctionExecution.started_at r2.1 <= FunctionExecution.started_at r1.1.

#[global] Instance newest_first_dec : RelDecision newest_first.
Proof. intros r1 r2. unfold newest_first. apply _. Defined.

(** [select(FunctionExecution, FunctionConfig.name).join(FunctionConfig)]:
    an inner join on the foreign key. *)
Definition join_config_name (d : Db) : list (FunctionExecution.t * string) :=
  omap (fun '(_, e) =>
          match function_configs d !! FunctionExecution.function_config_id e with
          | Some c => Some (e, FunctionConfig.name c)
          | None => None
          end)
    (map_to_list (function_executions d)).

Definition summary_success (e : FunctionExecution.t) : bool :=
  bool_decide (FunctionExecution.status e = SUCCESS) &&
  match FunctionExecution.response_status_code e with
  | Some code => (200 <=? code) && (code <? 300)
  | None => false
  end.

(** The loop of [get_recent_executions]: rows without an id are skipped. *)
Definition summarize (r : FunctionExecution.t * string) : option ExecutionSummary.t :=
  let '(e, function_name) := r in
  match FunctionExecution.id e with
  | None => None
  | Some i =>
      Some (ExecutionSummary.mk i function_name (FunctionExecution.status e)
              (FunctionExecution.started_at e) (FunctionExecution.completed_at e)
              (FunctionExecution.duration_ms e) (FunctionExecution.response_status_code e)
              (summary_success e))
  end.

(** [.limit(limit)] with a Python [int]: SQLite's [LIMIT n], where a
    negative [n] sets no upper bound. *)
Definition sql_limit {A} (n : Z) (l : list A) : list A :=
  if n <? 0 then l else take (Z.to_nat n) l.

Definition get_recent_executions (limit : Z) (d : Db) : list ExecutionSummary.t :=
  omap summarize (sql_limit limit (merge_sort newest_first (join_config_name d))).

(** ** Sequences of service calls *)

(** The service operations a caller issues.  [EditConfig] is a write of a
    modified configuration row ([session.add(config); session.commit()]);
    the services offer no update method, so it stands for any edit of the
    table. *)
Inductive ServiceCall :=
| CreateConfig (config_data : FunctionConfigCreate.t)
| DeleteConfig (config_id : Z)
| ExecuteFunction (config_id : Z)
| EditConfig (config_id : Z) (config : FunctionConfig.t).

Definition run_call (c : ServiceCall) : M unit :=
  match c with
  | CreateConfig data => let* _ := create_from_input data in ret tt
  | DeleteConfig k => let* _ := delete k in ret tt
  | ExecuteFunction k => let* _ := execute_function k in ret tt
  | EditConfig k config =>
      modify_db (fun d => mkDb (<[k:=config]> (function_configs d)) (function_executions d)
                               (config_rowid d) (execution_rowid d))
  end.

(** Each call is handled on its own: an exception ends that call only. *)
Fixpoint run_calls (cs : list ServiceCall) : M unit :=
  match cs with
  | [] => ret tt
  | c :: cs' =>
      let* _ := try_except (run_call c) (fun _ => ret tt) in
      run_calls cs'
  end.

(** ** Finalization, as recorded by the handlers *)

(** The error message and status the handlers of [_execute_api_call]
    record for an exception. *)
Definition handler_message (exc : PyExc) : string :=
  match exc with
  | TimeoutException _ => "Request timed out"
  | HTTPStatusError _ r => "HTTP " +:+ pretty (status_code r) +:+ ": " +:+ str_take 500 (text r)
  | e => py_str e
  end.

Definition handler_status (exc : PyExc) : CallStatus :=
  match exc with
  | TimeoutException _ => TIMEOUT
  | _ => FAILED
  end.

Definition store_row (s : State) (k : Z) (e : FunctionExecution.t) (t : nat)
  (sent' : list HttpRequest) : State :=
  mkState (mkDb (function_configs (db s)) (<[k:=e]> (function_executions (db s)))
             (config_rowid (db s)) k) t sent'.


(** ** Invariants of the stored executions *)

(** The clock never runs backwards. *)
Definition clock_monotone (w : World) : Prop :=
  forall i j : nat, (i <= j)%nat -> clock w i <= clock w j.

(** The consistency of one execution row (section 7 of the spec). *)
Definition execution_consistent (e : FunctionExecution.t) : Prop :=
  (is_terminal (FunctionExecution.status e) = true ->
     is_Some (FunctionExecution.completed_at e) /\
     exists d, FunctionExecution.duration_ms e = Some d /\ 0 <= d) /\
  (FunctionExecution.status e = SUCCESS ->
     is_Some (FunctionExecution.response_status_code e) /\
     FunctionExecution.error_message e = "") /\
  (FunctionExecution.status e = TIMEOUT ->
     FunctionExecution.error_message e = "Request timed out") /\
  (is_terminal (FunctionExecution.status e) = false ->
     FunctionExecution.error_message e = "").

(** Every stored row is consistent and was started no later than the
    clock's next reading. *)
Definition executions_consistent (w : World) (s : State) : Prop :=
  map_Forall (fun _ e => execution_consistent e /\
                         FunctionExecution.started_at e <= clock w (ticks s))
    (function_executions (db s)).

Definition execution_bounded (e : FunctionExecution.t) : Prop :=
  (String.length (FunctionExecution.response_body e) <= 10000)%nat /\
  (String.length (FunctionExecution.error_message e) <= 1000)%nat.

Definition executions_bounded (d : Db) : Prop :=
  map_Forall (fun _ e => execution_bounded e) (function_executions d).

Definition request_snapshot (e : FunctionExecution.t) : string * string * Headers * Payload :=
  (FunctionExecution.request_url e, FunctionExecution.request_method e,
   FunctionExecution.request_headers e, FunctionExecution.request_payload e).

Definition config_snapshot (c : FunctionConfig.t) : string * string * Headers * Payload :=
  (FunctionConfig.endpoint_url c, FunctionConfig.http_method c,
   FunctionConfig.headers c, FunctionConfig.payload c).

(** The row id counter is above every stored key. *)
Definition rowids_fresh (d : Db) : Prop :=
  map_Forall (fun k _ => k <= execution_rowid d) (function_executions d).

(** Every row of [m0] is still stored, with the same request fields. *)
Definition snapshots_kept (m0 : gmap Z FunctionExecution.t) (d : Db) : Prop :=
  map_Forall (fun k e0 => exists e, function_executions d !! k = Some e /\
                                    request_snapshot e = request_snapshot e0) m0.

(** One call of a sequence, its exception discarded. *)
Definition run_one (c : ServiceCall) : M unit := try_except (run_call c) (fun _ => ret tt).

(** ** Reads and seeding ([app/services.py]) *)

(** [FunctionConfigService.get_by_id] *)
Definition get_by_id (config_id : Z) : M (option FunctionConfig.t) :=
  session_get_config config_id.

(** [FunctionExecutionService.get_execution_details] *)
Definition get_execution_details (execution_id : Z) : M (option FunctionExecution.t) :=
  session_get_execution execution_id.

(** The [sample_configs] of [seed_sample_data], fields not given keeping
    their schema defaults. *)
Definition sample_configs : list FunctionConfigCreate.t :=
  [FunctionConfigCreate.mk "JSONPlaceholder Posts" "Fetch sample posts from JSONPlaceholder API"
     "https://jsonplaceholder.typicode.com/posts" "GET" ∅ [] 10 true "primary" 1;
   FunctionConfigCreate.mk "Create Post" "Create a new post via JSONPlaceholder API"
     "https://jsonplaceholder.typicode.com/posts" "POST"
     {["Content-Type" := "application/json"]}
     [("title", JString "Sample Post");
      ("body", JString "This is a sample post created from the UI");
      ("userId", JNumber 1)] 15 true "positive" 2;
   FunctionConfigCreate.mk "HTTPBin Echo" "Test API call with HTTPBin echo service"
     "https://httpbin.org/post" "POST"
     {["Content-Type" := "application/json"]}
     [("message", JString "Hello from Function Trigger App!");
      ("timestamp", JString "2024-01-01T00:00:00Z")] 20 true "accent" 3].

(** Building the list: each [FunctionConfigCreate(...)] validates its
    fields, the first failure propagating. *)
Fixpoint build_configs (l : list FunctionConfigCreate.t) : M (list FunctionConfigCreate.t) :=
  match l with
  | [] => ret []
  | d :: l' =>
      match FunctionConfigCreate.validation_errors d with
      | [] => let* r := build_configs l' in ret (d :: r)
      | errs => raise (ValidationError errs)
      end
  end.

(** [for config_data in sample_configs: try: service.create(config_data)
    except Exception: log] *)
Fixpoint create_each (l : list FunctionConfigCreate.t) : M unit :=
  match l with
  | [] => ret tt
  | d :: l' =>
      let* _ := try_except (let* _ := create d in ret tt) (fun _ => ret tt) in
      create_each l'
  end.

Definition seed_sample_data : M unit :=
  let* configs := build_configs sample_configs in
  create_each configs.

(** ** Display of durations ([app/models.py], [app/execution_history.py]) *)

(** Round-half-even of [p / q], for [q > 0]. *)
Definition round_half_even (p q : Z) : Z :=
  let a := p / q in
  let r := p mod q in
  if 2 * r <? q then a
  else if q <? 2 * r then a + 1
  else if Z.even a then a else a + 1.

(** [p / q >= 2 ^ k], for [p, q > 0]. *)
Definition ratio_ge_pow2 (p q k : Z) : bool :=
  if 0 <=? k then q * 2 ^ k <=? p else q <=? p * 2 ^ (- k).

(** [floor(log2(p / q))], for [p, q > 0]. *)
Definition floor_log2_ratio (p q : Z) : Z :=
  let k := Z.log2 p - Z.log2 q in
  if ratio_ge_pow2 p q k then k else k - 1.

(** Python's [p / q] on integers, for [p, q > 0]: the IEEE double nearest
    to the exact quotient (ties to even), as [m * 2 ^ e] with a 53-bit
    significand [m] ([e >= -1074]); [None] where CPython raises
    [OverflowError] (the rounded quotient reaches [2 ^ 1024]). *)
Definition true_div (p q : Z) : option (Z * Z) :=
  let e := Z.max (floor_log2_ratio p q - 52) (-1074) in
  let m := if e <=? 0 then round_half_even (p * 2 ^ (- e)) q
           else round_half_even p (q * 2 ^ e) in
  if (0 <=? e) && (2 ^ 1024 <=? m * 2 ^ e) then None else Some (m, e).

(** [f"{x:.1f}"] for the positive double [x = m * 2 ^ e]: the exact binary
    value rounded to tenths, ties to even. *)
Definition format_1f (m e : Z) : string :=
  let n := if e <? 0 then round_half_even (10 * m) (2 ^ (- e)) else 10 * m * 2 ^ e in
  pretty (n / 10) +:+ "." +:+ pretty (n mod 10).

(** [f"{ms / 1000:.1f}s"], for [ms >= 1000]. *)
Definition seconds_display (ms : Z) : option string :=
  match true_div ms 1000 with
  | Some (m, e) => Some (format_1f m e +:+ "s")
  | None => None
  end.

(** The [ExecutionSummary.duration_display] property; [None] where it
    raises [OverflowError]. *)
Definition duration_display (duration_ms : option Z) : option string :=
  match duration_ms with
  | None => Some "N/A"
  | Some ms => if ms <? 1000 then Some (pretty ms +:+ "ms") else seconds_display ms
  end.

(** The [duration_display] of a row of the executions table in
    [ExecutionHistory._create_executions_table]:
    [f"{ms}ms" if ms and ms < 1000 else f"{ms / 1000:.1f}s" if ms else "N/A"]. *)
Definition history_duration_display (duration_ms : option Z) : option string :=
  match duration_ms with
  | Some ms =>
      if negb (ms =? 0) && (ms <? 1000) then Some (pretty ms +:+ "ms")
      else if negb (ms =? 0) then seconds_display ms
      else Some "N/A"
  | None => Some "N/A"
  end.

(** ** [FunctionDashboard._truncate_url] ([app/function_dashboard.py]) *)

(** [s[:n]] for any integer [n]: a negative bound counts from the end. *)
Definition py_slice_to (s : string) (n : Z) : string :=
  if 0 <=? n then str_take (Z.to_nat n) s
  else str_take (Z.to_nat (Z.of_nat (String.length s) + n)) s.

Definition truncate_url (url : string) (max_length : Z) : string :=
  if Z.of_nat (String.length url) <=? max_length then url
  else py_slice_to url (max_length - 3) +:+ "...".

(** ** [FunctionDashboard._execute_function] ([app/function_dashboard.py]) *)

(** The dashboard's [executing_functions] and the [ui.notify] messages it
    has shown, as (message, type). *)
Record Dashboard := mkDashboard {
  executing_functions : gmap Z bool;
  notifications : list (string * string)
}.

Definition notify (message type : string) (ds : Dashboard) : Dashboard :=
  mkDashboard (executing_functions ds) (notifications ds ++ [(message, type)]).

Definition set_executing (config_id : Z) (b : bool) (ds : Dashboard) : Dashboard :=
  mkDashboard (<[config_id:=b]> (executing_functions ds)) (notifications ds).

(** The notification for the record [execute_function] returned. *)
Definition result_notification (function_name : string) (execution : FunctionExecution.t)
  : string * string :=
  match FunctionExecution.status execution with
  | SUCCESS => ("✅ " +:+ function_name +:+ " completed successfully!", "positive")
  | TIMEOUT => ("⏰ " +:+ function_name +:+ " timed out", "warning")
  | _ => ("❌ " +:+ function_name +:+ " failed: " +:+ FunctionExecution.error_message execution,
          "negative")
  end.

(** [_refresh_dashboard] only re-renders (each failure logged), so it
    leaves both states as they are; the [finally] clause resets the flag. *)
Definition dashboard_execute_function (config_id : Z) (w : World) (s : State)
  (ds : Dashboard) : State * Dashboard :=
  if default false (executing_functions ds !! config_id) then (s, ds)
  else
    let ds1 := set_executing config_id true ds in
    match get_by_id config_id w s with
    | (s1, inl e) =>
        (s1, set_executing config_id false
               (notify ("Error fetching function configuration: " +:+ py_str e) "negative" ds1))
    | (s1, inr config) =>
        let ds2 :=
          match config with
          | Some c => notify ("Executing " +:+ FunctionConfig.name c +:+ "...") "info" ds1
          | None => notify ("Executing function " +:+ pretty config_id +:+ "...") "info" ds1
          end in
        let function_name :=
          match config with
          | Some c => FunctionConfig.name c
          | None => "Function " +:+ pretty config_id
          end in
        match execute_function config_id w s1 with
        | (s2, inr execution) =>
            let '(msg, type) := result_notification function_name execution in
            (s2, set_executing config_id false (notify msg type ds2))
        | (s2, inl e) =>
            (s2, set_executing config_id false
                   (notify ("❌ " +:+ function_name +:+ " execution failed: " +:+ py_str e)
                      "negative" ds2))
        end
    end.

(** ** [FunctionConfigForm._save_function] ([app/function_config.py]) *)

(** [str.isspace] for the characters below 256. *)
Definition py_isspace (c : ascii) : bool :=
  let n := nat_of_ascii c in
  ((9 <=? n) && (n <=? 13))%nat || ((28 <=? n) && (n <=? 32))%nat ||
  (n =? 133)%nat || (n =? 160)%nat.

Fixpoint py_lstrip (s : string) : string :=
  match s with
  | EmptyString => EmptyString
  | String c s' => if py_isspace c then py_lstrip s' else s
  end.

Fixpoint py_rstrip (s : string) : string :=
  match s with
  | EmptyString => EmptyString
  | String c s' =>
      let r := py_rstrip s' in
      if String.eqb r "" && py_isspace c then "" else String c r
  end.

(** [s.strip()] *)
Definition py_strip (s : string) : string := py_rstrip (py_lstrip s).

Fixpoint str_forallb (f : ascii -> bool) (s : string) : bool :=
  match s with
  | EmptyString => true
  | String c s' => f c && str_forallb f s'
  end.

Definition dquote : string := String (ascii_of_nat 34) EmptyString.

(** The values of the form's widgets: text inputs hold strings, selects an
    optional string, [ui.number] an optional (finite) float. *)
Record FormInput := mkFormInput {
  name_value : string;
  description_value : string;
  endpoint_value : string;
  method_value : option string;
  headers_value : string;
  payload_value : string;
  timeout_value : option Q;
  color_value : option string;
  order_value : option Q
}.

(** [int(v)]: truncation toward zero; [int(None)] raises [TypeError]. *)
Definition py_int (v : option Q) : string + Z :=
  match v with
  | Some q => inr (Z.quot (Qnum q) (Zpos (Qden q)))
  | None => inl "int() argument must be a string, a bytes-like object or a real number, not 'NoneType'"
  end.

(** A select's value, or the default when it is [None] or empty. *)
Definition select_or (v : option string) (default : string) : string :=
  match v with
  | Some m => if String.eqb m "" then default else m
  | None => default
  end.

(** Pydantic's [Dict[str, str]]: an object whose values are all strings. *)
Definition headers_of_json (j : json) : option Headers :=
  match j with
  | JObject kvs =>
      if forallb (fun '(_, v) => match v with JString _ => true | _ => false end) kvs
      then Some (foldl (fun m '(k, v) =>
                          match v with JString x => <[k:=x]> m | _ => m end) ∅ kvs)
      else None
  | _ => None
  end.

(** Pydantic's [Dict[str, Any]]. *)
Definition payload_of_json (j : json) : option Payload :=
  match j with
  | JObject kvs => Some kvs
  | _ => None
  end.

(** The fields pydantic reports, in the schema's field order. *)
Definition config_create_errors (name description endpoint_url http_method : string)
  (headers_ok payload_ok : bool) (timeout_seconds : Z) (button_color : string) : list string :=
  (if (String.length name <=? 100)%nat then [] else ["name"]) ++
  (if (String.length description <=? 500)%nat then [] else ["description"]) ++
  (if (String.length endpoint_url <=? 500)%nat then [] else ["endpoint_url"]) ++
  (if (String.length http_method <=? 10)%nat then [] else ["http_method"]) ++
  (if headers_ok then [] else ["headers"]) ++
  (if payload_ok then [] else ["payload"]) ++
  (if (1 <=? timeout_seconds) && (timeout_seconds <=? 300) then [] else ["timeout_seconds"]) ++
  (if (String.length button_color <=? 20)%nat then [] else ["button_color"]).

Section SaveFunction.

(** [json.loads]: [str()] of its [JSONDecodeError], or the parsed value. *)
Variable json_loads : string -> string + json.

Definition parse_headers (text : string) : string + json :=
  if String.eqb (py_strip text) "" then inr (JObject [])
  else match json_loads text with
       | inl msg => inl msg
       | inr (JObject kvs) => inr (JObject kvs)
       | inr _ => inl "Headers must be a JSON object"
       end.

Definition parse_payload (text : string) : string + json :=
  if String.eqb (py_strip text) "" then inr (JObject []) else json_loads text.

(** [FunctionConfigCreate(...)] with the form's values; the error is
    [str()] of the exception. *)
Definition build_config_data (inp : FormInput) (headers payload : json)
  : string + FunctionConfigCreate.t :=
  let method := select_or (method_value inp) "POST" in
  let name := py_strip (name_value inp) in
  let description := py_strip (description_value inp) in
  let endpoint_url := py_strip (endpoint_value inp) in
  match py_int (timeout_value inp) with
  | inl msg => inl msg
  | inr timeout =>
      let color := select_or (color_value inp) "primary" in
      match py_int (order_value inp) with
      | inl msg => inl msg
      | inr order =>
          match headers_of_json headers, payload_of_json payload with
          | Some hs, Some ps =>
              let d := FunctionConfigCreate.mk name description endpoint_url method hs ps
                         timeout true color order in
              match FunctionConfigCreate.validation_errors d with
              | [] => inr d
              | errs => inl (py_str (ValidationError errs))
              end
          | hs, ps =>
              inl (py_str (ValidationError
                     (config_create_errors name description endpoint_url method
                        (bool_decide (is_Some hs)) (bool_decide (is_Some ps)) timeout color)))
          end
      end
  end.

(** The form's save handler: the new state and the notifications shown. *)
Definition save_function (inp : FormInput) (w : World) (s : State)
  : State * list (string * string) :=
  if String.eqb (name_value inp) "" then (s, [("Function name is required", "negative")])
  else if String.eqb (endpoint_value inp) "" then (s, [("Endpoint URL is required", "negative")])
  else
    match parse_headers (headers_value inp) with
    | inl msg => (s, [("Invalid headers JSON: " +:+ msg, "negative")])
    | inr headers =>
        match parse_payload (payload_value inp) with
        | inl msg => (s, [("Invalid payload JSON: " +:+ msg, "negative")])
        | inr payload =>
            match build_config_data inp headers payload with
            | inl msg => (s, [("Error saving function: " +:+ msg, "negative")])
            | inr d =>
                match create d w s with
                | (s', inl e) => (s', [("Error saving function: " +:+ py_str e, "negative")])
                | (s', inr _) =>
                    (s', [("✅ Function " +:+ dquote +:+ FunctionConfigCreate.name d +:+
                           dquote +:+ " saved successfully!", "positive")])
                end
            end
        end
    end.

End SaveFunction.

(** No configuration key is above the configuration row id counter. *)
Definition config_rowids_fresh (d : Db) : Prop :=
  map_Forall (fun k _ => k <= config_rowid d) (function_configs d).

(** A valid input for [create]. *)
Definition ping_input : FunctionConfigCreate.t :=
  FunctionConfigCreate.mk "Ping" "" "https://example.test/ping" "GET" ∅ [] 30 true "primary" 0.

(** A [json.loads] that accepts only the empty object. *)
Definition empty_object_loads (text : string) : string + json :=
  if String.eqb text "{}" then inr (JObject [])
  else inl "Expecting value: line 1 column 1 (char 0)".

(** The form with a name of three spaces and otherwise valid values. *)
Definition blank_name_form : FormInput :=
  mkFormInput "   " "" "https://example.test/ping" None "{}" "" (Some (inject_Z 30))
    None (Some (inject_Z 0)).

(** ** Fixtures for concrete runs *)

Definition sample_config (method : string) : FunctionConfig.t :=
  FunctionConfig.mk (Some 1) "Test Function" "" "https://example.test/x" method
    ∅ [] 10 true "primary" 0 0 0.

Definition sample_state (method : string) : State :=
  mkState (mkDb {[1 := sample_config method]} ∅ 1 0) 0 [].

(** A server that answers every request with [outcome]; the clock advances
    one millisecond per reading. *)
Definition fixed_world (outcome : HttpResponse + PyExc) : World :=
  mkWorld (fun _ => outcome) (fun i => Z.of_nat i * 1000).

Definition not_found_response : HttpResponse := mkResponse 404 ∅ "Not Found".

(** An input with an empty name and URL and an unsupported method. *)
Definition blank_input : FunctionConfigCreate.t :=
  FunctionConfigCreate.mk "" "" "" "PATCH" ∅ [] 30 true "primary" 0.

(** Every stored execution row carries its primary key as its id. *)
Definition ids_are_keys (d : Db) : Prop :=
  map_Forall (fun k e => FunctionExecution.id e = Some k) (function_executions d).

(** Configuration 1, an execution of it and an execution of the missing
    configuration 7. *)
Definition orphan_db : Db :=
  mkDb {[1 := sample_config "GET"]}
    {[1 := with_execution_id 1 (new_execution 1 5000 (sample_config "GET"));
      2 := with_execution_id 2 (new_execution 7 9000 (sample_config "GET"))]} 1 2.

(** Two executions, an edit of the configuration, a refused delete and an
    execution of a missing configuration. *)
Definition sample_calls : list ServiceCall :=
  [ExecuteFunction 1; EditConfig 1 (sample_config "POST"); ExecuteFunction 1;
   DeleteConfig 1; ExecuteFunction 2].

(** ** The client's timeout ([httpx]) *)

(** One exchange as httpx times it, in milliseconds: the wait for a pooled
    connection, connecting, each wait while sending the request and each
    wait for data while reading the response. *)
Record Exchange := mkExchange {
  pool_ms : Z;
  connect_ms : Z;
  write_waits_ms : list Z;
  read_waits_ms : list Z;
  reply : HttpResponse
}.

Definition exchange_phases (x : Exchange) : list Z :=
  [pool_ms x; connect_ms x] ++ write_waits_ms x ++ read_waits_ms x.

(** [timeout=N] is [httpx.Timeout(N)]: the pool, connect, write and read
    timeouts are all [N] seconds, each checked for one phase alone.  The
    first phase over the limit raises its [httpx.TimeoutException]
    (PoolTimeout, ConnectTimeout, WriteTimeout or ReadTimeout) once the
    limit has passed.  The result: whether it timed out, and the time
    spent. *)
Fixpoint run_phases (limit : Z) (ps : list Z) : bool * Z :=
  match ps with
  | [] => (false, 0)
  | p :: ps' =>
      if limit <? p then (true, limit)
      else let '(b, t) := run_phases limit ps' in (b, p + t)
  end.

Definition httpx_send (timeout_seconds : Z) (x : Exchange) : HttpResponse + PyExc :=
  if (run_phases (timeout_seconds * 1000) (exchange_phases x)).1
  then inr (TimeoutException "timed out")
  else inl (reply x).

(** A server whose every exchange is [x], the requests sent with timeout
    [timeout_seconds]: the clock (in microseconds) reads 0 up to reading
    [t0 + 1], the last one before the request when [execute_function]
    starts at reading [t0], and afterwards the time the exchange took. *)
Definition exchange_world (t0 : nat) (timeout_seconds : Z) (x : Exchange) : World :=
  mkWorld (fun req => httpx_send (rq_timeout req) x)
    (fun i => if (i <=? S t0)%nat then 0
              else 1000 * (run_phases (timeout_seconds * 1000) (exchange_phases x)).2).

(** A GET with a 2 s timeout to a server that takes 1.9 s to accept the
    connection and then 1.9 s before it answers. *)
Definition slow_config : FunctionConfig.t :=
  FunctionConfig.mk (Some 1) "Slow" "" "https://example.test/slow" "GET"
    ∅ [] 2 true "primary" 0 0 0.

Definition slow_state : State :=
  mkState (mkDb {[1 := slow_config]} ∅ 1 0) 0 [].

Definition slow_exchange : Exchange :=
  mkExchange 0 1900 [0] [1900] (mkResponse 200 ∅ "ok").

(** * Properties *)

(** ** Strings *)

Lemma str_take_length (n : nat) (s : string) : (String.length (str_take n s) <= n)%nat.
Proof.
  revert s. induction n as [|n IH]; intros [|c s]; simpl; try lia.
  specialize (IH s). lia.
Qed.

Lemma str_upper_length (s : string) : String.length (str_upper s) = String.length s.
Proof. induction s; simpl; auto. Qed.

Lemma append_cons (c : ascii) (a b : string) : String c a +:+ b = String c (a +:+ b).
Proof. reflexivity. Qed.

Lemma append_nil (b : string) : "" +:+ b = b.
Proof. reflexivity. Qed.

Lemma str_take_app (n : nat) (a b : string) :
  (String.length a <= n)%nat -> str_take n (a +:+ b) = a +:+ str_take (n - String.length a) b.
Proof.
  revert n. induction a as [|c a IH]; intros n Hn; simpl in *.
  - by rewrite Nat.sub_0_r.
  - destruct n as [|n]; [lia|]. rewrite !append_cons. simpl. f_equal. apply IH. lia.
Qed.

Lemma prefix_app (p b : string) : String.prefix p (p +:+ b) = true.
Proof.
  induction p as [|c p IH]; [by destruct b|].
  rewrite append_cons. simpl.
  destruct (ascii_dec c c); [exact IH|congruence].
Qed.

Lemma str_contains_app (p a b : string) : str_contains p (a +:+ p +:+ b) = true.
Proof.
  induction a as [|c a IH].
  - rewrite append_nil. destruct p as [|x p]; [by destruct b|].
    rewrite append_cons. simpl.
    destruct (ascii_dec x x); [|congruence]. by rewrite prefix_app.
  - rewrite append_cons. simpl. rewrite IH. apply orb_true_r.
Qed.

(** ** Running [execute_function] *)

Ltac unfold_monad :=
  unfold execute_function, execute_api_call, api_call_handler, mark_execution_failed,
    session_refresh_execution, session_get_config, session_get_execution,
    session_put_execution, session_add_execution, client_request, modify_db,
    utcnow, try_except, bind, raise, ret in *.

(** [execute_function] on an existing configuration, computed: the new row
    is inserted at the next row id and finalized in place. *)
Lemma execute_function_eq (w : World) (s : State) (config_id : Z) (c : FunctionConfig.t) :
  function_configs (db s) !! config_id = Some c ->
  let k := execution_rowid (db s) + 1 in
  let t := ticks s in
  let e0 := with_execution_id k (new_execution config_id (clock w t) c) in
  let method := str_upper (FunctionConfig.http_method c) in
  execute_function config_id w s =
    match prepare_request method c with
    | None =>
        let e' := record_failure e0 FAILED (clock w (S (S t)))
                    (str_take 1000 ("Unsupported HTTP method: " +:+ method))
                    (elapsed_ms (clock w t) (clock w (S (S (S t))))) in
        (store_row s k e' (S (S (S (S t)))) (sent s), inr e')
    | Some req =>
        match transport w req with
        | inl r =>
            let e' := record_success e0 (clock w (S (S t)))
                        (elapsed_ms (clock w (S t)) (clock w (S (S t)))) r in
            (store_row s k e' (S (S (S t))) (sent s ++ [req]), inr e')
        | inr exc =>
            let e' := record_failure e0 (handler_status exc) (clock w (S (S t)))
                        (str_take 1000 (handler_message exc))
                        (elapsed_ms (clock w t) (clock w (S (S (S t))))) in
            (store_row s k e' (S (S (S (S t)))) (sent s ++ [req]), inr e')
        end
    end.
Proof.
  intros Hc. unfold_monad; simpl. rewrite Hc; simpl.
  destruct (prepare_request _ c) as [req|]; simpl.
  - destruct (transport w req) as [r|e]; simpl.
    + unfold store_row. simplify_map_eq. simpl. by rewrite insert_insert_eq.
    + destruct e; simpl; simplify_map_eq; simpl; unfold store_row;
        by rewrite insert_insert_eq.
  - unfold store_row. simplify_map_eq. simpl. by rewrite insert_insert_eq.
Qed.

Lemma execute_function_not_found (w : World) (s : State) (config_id : Z) :
  function_configs (db s) !! config_id = None ->
  execute_function config_id w s =
    (s, inl (ValueError ("Function configuration " +:+ pretty config_id +:+ " not found"))).
Proof. intros Hc. unfold_monad; simpl. by rewrite Hc. Qed.

Lemma prepare_request_unsupported (method : string) (c : FunctionConfig.t) :
  method ∉ ["GET"; "POST"; "PUT"; "DELETE"] -> prepare_request method c = None.
Proof.
  intros Hm. unfold prepare_request.
  repeat match goal with
  | |- context [String.eqb method ?x] =>
      destruct (String.eqb_spec method x) as [->|]; [set_solver|]
  end; done.
Qed.

Lemma str_take_all (n : nat) (s : string) :
  (String.length s <= n)%nat -> str_take n s = s.
Proof.
  revert n. induction s as [|c s IH]; intros [|n] Hn; simpl in *; try lia; auto.
  f_equal. apply IH. lia.
Qed.

Lemma append_nil_r (a : string) : a +:+ "" = a.
Proof. induction a as [|c a IH]; [done|]. by rewrite append_cons, IH. Qed.

Lemma append_assoc (a b c : string) : a +:+ (b +:+ c) = (a +:+ b) +:+ c.
Proof.
  induction a as [|x a IH]; [done|]. by rewrite !append_cons, IH.
Qed.

Lemma length_append (a b : string) :
  String.length (a +:+ b) = (String.length a + String.length b)%nat.
Proof. induction a as [|x a IH]; [done|]. rewrite append_cons. simpl. by rewrite IH. Qed.

Lemma lookup_store_row (s : State) (k : Z) (e : FunctionExecution.t) t l :
  function_executions (db (store_row s k e t l)) !! k = Some e.
Proof. unfold store_row. simpl. by simplify_map_eq. Qed.

(** ** C1: errors after the record exists are captured in it *)

(** C1. [execute_function] raises only when the configuration id does not
    resolve (the [ValueError] "Function configuration ... not found"); in
    every other case it returns the execution, whose status is terminal.
    Unsupported methods, timeouts and transport errors end up in that
    status; the record always receives an id, so the "Failed to create
    execution record" branch is never taken. *)
Theorem execute_function_raises_only_early (w : World) (s : State) (config_id : Z) :
  match (execute_function config_id w s).2 with
  | inl e => function_configs (db s) !! config_id = None /\
             e = ValueError ("Function configuration " +:+ pretty config_id +:+ " not found")
  | inr e => function_configs (db s) !! config_id <> None /\
             is_terminal (FunctionExecution.status e) = true
  end.
Proof.
  destruct (function_configs (db s) !! config_id) as [c|] eqn:Hc.
  - rewrite (execute_function_eq w s config_id c Hc).
    destruct (prepare_request _ c) as [req|]; simpl; [|split; [congruence|done]].
    destruct (transport w req) as [r|exc]; simpl; split; try congruence.
    by destruct exc.
  - rewrite (execute_function_not_found w s config_id Hc). simpl. auto.
Qed.

(** ** C3: unsupported methods *)

(** C3 (counterexample). A configuration whose method is the lower-case
    string "patch" fails with the message "Unsupported HTTP method: PATCH",
    which does not contain the stored method string "patch". *)
Lemma unsupported_method_message_lowercase :
  match (execute_function 1 (fixed_world (inl not_found_response)) (sample_state "patch")).2 with
  | inr e => FunctionExecution.status e = FAILED /\
             FunctionExecution.error_message e = "Unsupported HTTP method: PATCH" /\
             str_contains "patch" (FunctionExecution.error_message e) = false
  | inl _ => False
  end.
Proof. vm_compute. auto. Qed.

(** C3 (amended). If the upper-cased method of the configuration is not
    GET, POST, PUT or DELETE, [execute_function] sends no request and
    returns the stored execution with status FAILED and error message
    "Unsupported HTTP method: " followed by the upper-cased method, cut to
    1,000 characters: it contains "Unsupported HTTP method", and it
    contains the upper-cased method whenever the method has at most 975
    characters. *)
Theorem unsupported_method_recorded (w : World) (s : State) (config_id : Z)
  (c : FunctionConfig.t) :
  function_configs (db s) !! config_id = Some c ->
  str_upper (FunctionConfig.http_method c) ∉ ["GET"; "POST"; "PUT"; "DELETE"] ->
  let method := str_upper (FunctionConfig.http_method c) in
  let '(s', r) := execute_function config_id w s in
  sent s' = sent s /\
  exists e, r = inr e /\
    function_executions (db s') !! (execution_rowid (db s) + 1) = Some e /\
    FunctionExecution.status e = FAILED /\
    FunctionExecution.error_message e = str_take 1000 ("Unsupported HTTP method: " +:+ method) /\
    str_contains "Unsupported HTTP method" (FunctionExecution.error_message e) = true /\
    ((String.length (FunctionConfig.http_method c) <= 975)%nat ->
     str_contains method (FunctionExecution.error_message e) = true).
Proof.
  intros Hc Hm method.
  assert (Hpre : str_contains "Unsupported HTTP method"
                   (str_take 1000 ("Unsupported HTTP method: " +:+ method)) = true).
  { rewrite str_take_app by (simpl; lia).
    change ("Unsupported HTTP method: " +:+ ?x) with
      ("" +:+ "Unsupported HTTP method" +:+ (": " +:+ x)).
    apply str_contains_app. }
  assert (Hmeth : (String.length (FunctionConfig.http_method c) <= 975)%nat ->
                  str_contains method
                    (str_take 1000 ("Unsupported HTTP method: " +:+ method)) = true).
  { intros Hlen. rewrite str_take_all.
    - rewrite <- (append_nil_r (_ +:+ method)), <- append_assoc.
      apply str_contains_app.
    - rewrite length_append. unfold method. rewrite str_upper_length. simpl. lia. }
  remember (str_take 1000 ("Unsupported HTTP method: " +:+ method)) as msg eqn:Hmsg.
  rewrite (execute_function_eq w s config_id c Hc).
  rewrite (prepare_request_unsupported _ c Hm). fold method. rewrite <- Hmsg.
  split; [done|]. eexists; split; [done|].
  split; [apply lookup_store_row|]. cbn.
  split; [done|]. split; [done|]. auto.
Qed.

Lemma unsupported_method_recorded_witness :
  function_configs (db (sample_state "patch")) !! 1 = Some (sample_config "patch") /\
  (str_upper (FunctionConfig.http_method (sample_config "patch"))
     ∉ ["GET"; "POST"; "PUT"; "DELETE"]) /\
  (let method := str_upper (FunctionConfig.http_method (sample_config "patch")) in
   let '(s', r) := execute_function 1 (fixed_world (inl not_found_response))
                     (sample_state "patch") in
   sent s' = sent (sample_state "patch") /\
   exists e, r = inr e /\
     function_executions (db s') !! (execution_rowid (db (sample_state "patch")) + 1) = Some e /\
     FunctionExecution.status e = FAILED /\
     FunctionExecution.error_message e = str_take 1000 ("Unsupported HTTP method: " +:+ method) /\
     str_contains "Unsupported HTTP method" (FunctionExecution.error_message e) = true /\
     ((String.length (FunctionConfig.http_method (sample_config "patch")) <= 975)%nat ->
      str_contains method (FunctionExecution.error_message e) = true)).
Proof.
  assert (Hc : function_configs (db (sample_state "patch")) !! 1 = Some (sample_config "patch"))
    by reflexivity.
  assert (Hm : str_upper (FunctionConfig.http_method (sample_config "patch"))
                 ∉ ["GET"; "POST"; "PUT"; "DELETE"]) by (vm_compute; set_solver).
  split; [exact Hc|]. split; [exact Hm|].
  exact (unsupported_method_recorded (fixed_world (inl not_found_response))
           (sample_state "patch") 1 (sample_config "patch") Hc Hm).
Defined.

(** ** C4: every HTTP response is recorded as SUCCESS *)

(** C4. When the configuration's method is supported and the request
    yields a response, whatever its status code (4xx and 5xx included),
    [execute_function] returns the stored execution with status SUCCESS,
    the response's status code and headers, and its text cut to 10,000
    characters. *)
Theorem response_recorded_success (w : World) (s : State) (config_id : Z)
  (c : FunctionConfig.t) (req : HttpRequest) (r : HttpResponse) :
  function_configs (db s) !! config_id = Some c ->
  prepare_request (str_upper (FunctionConfig.http_method c)) c = Some req ->
  transport w req = inl r ->
  let '(s', res) := execute_function config_id w s in
  sent s' = sent s ++ [req] /\
  exists e, res = inr e /\
    function_executions (db s') !! (execution_rowid (db s) + 1) = Some e /\
    FunctionExecution.status e = SUCCESS /\
    FunctionExecution.response_status_code e = Some (status_code r) /\
    FunctionExecution.response_headers e = resp_headers r /\
    FunctionExecution.response_body e = str_take 10000 (text r) /\
    is_Some (FunctionExecution.completed_at e) /\
    is_Some (FunctionExecution.duration_ms e).
Proof.
  intros Hc Hreq Hr.
  rewrite (execute_function_eq w s config_id c Hc), Hreq, Hr.
  split; [done|]. eexists; split; [done|].
  split; [apply lookup_store_row|].
  cbn. repeat split; eexists; done.
Qed.

Lemma response_recorded_success_witness :
  function_configs (db (sample_state "GET")) !! 1 = Some (sample_config "GET") /\
  prepare_request (str_upper (FunctionConfig.http_method (sample_config "GET")))
    (sample_config "GET") = Some (mkRequest "GET" "https://example.test/x" ∅ None 10) /\
  transport (fixed_world (inl not_found_response))
    (mkRequest "GET" "https://example.test/x" ∅ None 10) = inl not_found_response /\
  (let '(s', res) := execute_function 1 (fixed_world (inl not_found_response))
                       (sample_state "GET") in
   sent s' = sent (sample_state "GET") ++ [mkRequest "GET" "https://example.test/x" ∅ None 10] /\
   exists e, res = inr e /\
     function_executions (db s') !! (execution_rowid (db (sample_state "GET")) + 1) = Some e /\
     FunctionExecution.status e = SUCCESS /\
     FunctionExecution.response_status_code e = Some (status_code not_found_response) /\
     FunctionExecution.response_headers e = resp_headers not_found_response /\
     FunctionExecution.response_body e = str_take 10000 (text not_found_response) /\
     is_Some (FunctionExecution.completed_at e) /\
     is_Some (FunctionExecution.duration_ms e)).
Proof.
  assert (Hc : function_configs (db (sample_state "GET")) !! 1 = Some (sample_config "GET"))
    by reflexivity.
  assert (Hreq : prepare_request (str_upper (FunctionConfig.http_method (sample_config "GET")))
                   (sample_config "GET") = Some (mkRequest "GET" "https://example.test/x" ∅ None 10))
    by reflexivity.
  assert (Hr : transport (fixed_world (inl not_found_response))
                 (mkRequest "GET" "https://example.test/x" ∅ None 10) = inl not_found_response)
    by reflexivity.
  split; [exact Hc|]. split; [exact Hreq|]. split; [exact Hr|].
  exact (response_recorded_success (fixed_world (inl not_found_response)) (sample_state "GET")
           1 (sample_config "GET") _ _ Hc Hreq Hr).
Defined.

Lemma prepare_request_supported (method : string) (c : FunctionConfig.t) :
  method ∈ ["GET"; "POST"; "PUT"; "DELETE"] ->
  exists j,
    prepare_request method c =
      Some (mkRequest method (FunctionConfig.endpoint_url c) (FunctionConfig.headers c) j
              (FunctionConfig.timeout_seconds c)) /\
    (j = None <-> method = "GET" \/ method = "DELETE" \/ FunctionConfig.payload c = []) /\
    (forall p, j = Some p -> p = FunctionConfig.payload c).
Proof.
  intros Hm.
  assert (Hjb : forall p, json_body (FunctionConfig.payload c) = Some p ->
                          p = FunctionConfig.payload c).
  { unfold json_body. destruct (FunctionConfig.payload c); congruence. }
  assert (Hjn : json_body (FunctionConfig.payload c) = None <-> FunctionConfig.payload c = []).
  { unfold json_body. destruct (FunctionConfig.payload c); split; congruence. }
  repeat rewrite elem_of_cons in Hm. rewrite elem_of_nil in Hm.
  destruct Hm as [->|[->|[->|[->|[]]]]]; unfold prepare_request; cbn [String.eqb Ascii.eqb Bool.eqb].
  - exists None. split; [reflexivity|]. split; [split; [intros _; left; reflexivity|reflexivity]|].
    intros p Hp. discriminate.
  - exists (json_body (FunctionConfig.payload c)). split; [reflexivity|]. split; [|exact Hjb].
    rewrite Hjn. split; [auto|]. intros [H|[H|H]]; [discriminate|discriminate|exact H].
  - exists (json_body (FunctionConfig.payload c)). split; [reflexivity|]. split; [|exact Hjb].
    rewrite Hjn. split; [auto|]. intros [H|[H|H]]; [discriminate|discriminate|exact H].
  - exists None. split; [reflexivity|].
    split; [split; [intros _; right; left; reflexivity|reflexivity]|].
    intros p Hp. discriminate.
Qed.

(** ** C7: timeouts *)

(** When the request raises [httpx.TimeoutException], [execute_function]
    returns the stored execution with status TIMEOUT,
    error message exactly "Request timed out", and [completed_at] and
    [duration_ms] set. *)
Theorem timeout_recorded (w : World) (s : State) (config_id : Z)
  (c : FunctionConfig.t) (req : HttpRequest) (msg : string) :
  function_configs (db s) !! config_id = Some c ->
  prepare_request (str_upper (FunctionConfig.http_method c)) c = Some req ->
  transport w req = inr (TimeoutException msg) ->
  let '(s', res) := execute_function config_id w s in
  exists e, res = inr e /\
    function_executions (db s') !! (execution_rowid (db s) + 1) = Some e /\
    FunctionExecution.status e = TIMEOUT /\
    FunctionExecution.error_message e = "Request timed out" /\
    is_Some (FunctionExecution.completed_at e) /\
    is_Some (FunctionExecution.duration_ms e).
Proof.
  intros Hc Hreq Hr.
  rewrite (execute_function_eq w s config_id c Hc), Hreq, Hr.
  eexists; split; [done|].
  split; [apply lookup_store_row|].
  cbn. repeat split; eexists; done.
Qed.

Lemma run_phases_timed_out (limit : Z) (ps : list Z) :
  (run_phases limit ps).1 = true <-> exists p, p ∈ ps /\ limit < p.
Proof.
  induction ps as [|q ps IH]; cbn.
  - split; [discriminate|]. intros (p & Hp & _). by apply elem_of_nil in Hp.
  - destruct (limit <? q) eqn:E.
    + apply Z.ltb_lt in E. split; [intros _; exists q; split; [left|]; done|done].
    + apply Z.ltb_ge in E. destruct (run_phases limit ps) as [b t] eqn:Hr. cbn in *.
      rewrite IH. split.
      * intros (p & Hp & Hlt). exists p. split; [by right|done].
      * intros (p & Hp & Hlt). apply elem_of_cons in Hp as [->|Hp]; [lia|eauto].
Qed.

Lemma run_phases_in_time (limit : Z) (ps : list Z) :
  Forall (fun p => p <= limit) ps -> run_phases limit ps = (false, foldr Z.add 0 ps).
Proof.
  induction 1 as [|q ps Hq _ IH]; cbn; [done|].
  destruct (limit <? q) eqn:E; [apply Z.ltb_lt in E; lia|]. by rewrite IH.
Qed.

(** C7 (counterexample). With a 2 s timeout, a call that spends 1.9 s
    connecting and 1.9 s waiting for the answer produces no response within
    2 s, yet no single phase exceeds the limit: the execution is recorded as
    SUCCESS, with a duration of 3800 ms. *)
Lemma slow_call_recorded_success :
  foldr Z.add 0 (exchange_phases slow_exchange) = 3800 /\
  match (execute_function 1 (exchange_world 0 2 slow_exchange) slow_state).2 with
  | inr e => FunctionExecution.status e = SUCCESS /\
             FunctionExecution.duration_ms e = Some 3800 /\
             FunctionExecution.error_message e = ""
  | inl _ => False
  end.
Proof. vm_compute. auto. Qed.

(** C7 (amended).  httpx applies [timeout_seconds] to each phase of the
    call separately.  When one phase (the wait for a pooled connection,
    connecting, a wait while sending, or a wait for response data) exceeds
    it, the execution is finalized with status TIMEOUT, error message
    exactly "Request timed out", and [completed_at] and [duration_ms] set.
    When every phase stays within it, the response is recorded as SUCCESS
    with the whole exchange as its duration, however long that is. *)
Theorem timeout_per_phase (s : State) (config_id : Z) (c : FunctionConfig.t) (x : Exchange) :
  function_configs (db s) !! config_id = Some c ->
  str_upper (FunctionConfig.http_method c) ∈ ["GET"; "POST"; "PUT"; "DELETE"] ->
  let limit := FunctionConfig.timeout_seconds c * 1000 in
  let w := exchange_world (ticks s) (FunctionConfig.timeout_seconds c) x in
  let '(s', res) := execute_function config_id w s in
  exists e, res = inr e /\
    function_executions (db s') !! (execution_rowid (db s) + 1) = Some e /\
    ((exists p, p ∈ exchange_phases x /\ limit < p) ->
       FunctionExecution.status e = TIMEOUT /\
       FunctionExecution.error_message e = "Request timed out" /\
       is_Some (FunctionExecution.completed_at e) /\
       is_Some (FunctionExecution.duration_ms e)) /\
    (Forall (fun p => p <= limit) (exchange_phases x) ->
       FunctionExecution.status e = SUCCESS /\
       FunctionExecution.duration_ms e = Some (foldr Z.add 0 (exchange_phases x))).
Proof.
  intros Hc Hm limit w.
  destruct (prepare_request_supported _ c Hm) as (j & Hp & _).
  destruct (run_phases limit (exchange_phases x)) as [b t] eqn:Hrun.
  destruct b.
  - assert (Ht : transport w (mkRequest (str_upper (FunctionConfig.http_method c))
                   (FunctionConfig.endpoint_url c) (FunctionConfig.headers c) j
                   (FunctionConfig.timeout_seconds c)) = inr (TimeoutException "timed out")).
    { unfold w, exchange_world. cbn [transport rq_timeout]. unfold httpx_send. fold limit.
      by rewrite Hrun. }
    pose proof (timeout_recorded w s config_id c _ _ Hc Hp Ht) as Hto.
    destruct (execute_function config_id w s) as [s' res].
    destruct Hto as (e & He & Hk & Hst & Hmsg & Hca & Hd).
    exists e. split; [exact He|]. split; [exact Hk|]. split; [auto|].
    intros Hall. rewrite (run_phases_in_time _ _ Hall) in Hrun. discriminate.
  - rewrite (execute_function_eq w s config_id c Hc). cbv zeta. rewrite Hp.
    unfold w at 1, exchange_world at 1. cbn [transport rq_timeout]. unfold httpx_send. fold limit.
    rewrite Hrun. cbn [fst].
    eexists. split; [reflexivity|]. split; [apply lookup_store_row|]. split.
    + intros Hex. apply run_phases_timed_out in Hex. rewrite Hrun in Hex. discriminate.
    + intros Hall. rewrite (run_phases_in_time _ _ Hall) in Hrun. injection Hrun as <-.
      split; [reflexivity|]. cbn [record_success FunctionExecution.duration_ms].
      unfold w, exchange_world, clock, elapsed_ms. fold limit.
      rewrite (run_phases_in_time _ _ Hall). cbn [snd].
      rewrite Nat.leb_refl.
      replace ((S (S (ticks s)) <=? S (ticks s))%nat) with false
        by (symmetry; apply Nat.leb_gt; lia).
      f_equal. rewrite Z.sub_0_r, Z.mul_comm, Z.quot_mul; lia.
Qed.

Lemma timeout_per_phase_witness :
  function_configs (db slow_state) !! 1 = Some slow_config /\
  str_upper (FunctionConfig.http_method slow_config) ∈ ["GET"; "POST"; "PUT"; "DELETE"] /\
  (let limit := FunctionConfig.timeout_seconds slow_config * 1000 in
   let w := exchange_world (ticks slow_state) (FunctionConfig.timeout_seconds slow_config)
              slow_exchange in
   let '(s', res) := execute_function 1 w slow_state in
   exists e, res = inr e /\
     function_executions (db s') !! (execution_rowid (db slow_state) + 1) = Some e /\
     ((exists p, p ∈ exchange_phases slow_exchange /\ limit < p) ->
        FunctionExecution.status e = TIMEOUT /\
        FunctionExecution.error_message e = "Request timed out" /\
        is_Some (FunctionExecution.completed_at e) /\
        is_Some (FunctionExecution.duration_ms e)) /\
     (Forall (fun p => p <= limit) (exchange_phases slow_exchange) ->
        FunctionExecution.status e = SUCCESS /\
        FunctionExecution.duration_ms e = Some (foldr Z.add 0 (exchange_phases slow_exchange)))).
Proof.
  assert (H1 : function_configs (db slow_state) !! 1 = Some slow_config) by reflexivity.
  assert (H2 : str_upper (FunctionConfig.http_method slow_config)
                 ∈ ["GET"; "POST"; "PUT"; "DELETE"]) by (cbn; left).
  split; [exact H1|]. split; [exact H2|].
  exact (timeout_per_phase slow_state 1 slow_config slow_exchange H1 H2).
Defined.

(** ** Sequences of calls *)

Lemma run_one_total (c : ServiceCall) (w : World) (s : State) :
  run_one c w s = ((run_one c w s).1, inr tt).
Proof.
  unfold run_one, try_except, ret.
  destruct (run_call c w s) as [s1 [e|[]]]; reflexivity.
Qed.

Lemma run_calls_cons (c : ServiceCall) (cs : list ServiceCall) (w : World) (s : State) :
  (run_calls (c :: cs) w s).1 = (run_calls cs w (run_one c w s).1).1.
Proof.
  cbn [run_calls]. unfold bind. fold (run_one c). rewrite run_one_total. reflexivity.
Qed.

Lemma run_calls_ind (P : State -> Prop) (w : World) :
  (forall c s, P s -> P ((run_one c w s).1)) ->
  forall cs s, P s -> P ((run_calls cs w s).1).
Proof.
  intros Hstep cs. induction cs as [|c cs IH]; intros s Hs; [exact Hs|].
  rewrite run_calls_cons. apply IH, Hstep, Hs.
Qed.

Lemma run_call_cases (c : ServiceCall) (w : World) (s : State) :
  let s' := (run_one c w s).1 in
  (function_executions (db s') = function_executions (db s) /\
   execution_rowid (db s') = execution_rowid (db s) /\ (ticks s <= ticks s')%nat) \/
  (exists config_id cfg, function_configs (db s) !! config_id = Some cfg /\
     s' = (execute_function config_id w s).1).
Proof.
  unfold run_one. destruct c as [d|k|k|k cfg]; cbn [run_call].
  - unfold create_from_input.
    destruct (FunctionConfigCreate.validation_errors d); left;
      unfold create, try_except, bind, utcnow, raise, ret; simpl; repeat split; lia.
  - left. unfold delete, try_except, bind, session_get_config, raise, ret; simpl.
    destruct (function_configs (db s) !! k); simpl; [|repeat split; lia].
    destruct (references k (db s)); simpl; repeat split; lia.
  - destruct (function_configs (db s) !! k) as [cfg|] eqn:Hc.
    + right. exists k, cfg. split; [done|].
      unfold try_except, bind, ret.
      destruct (execute_function k w s) as [s1 [e|x]]; reflexivity.
    + left. unfold try_except, bind.
      rewrite (execute_function_not_found w s k Hc). simpl. repeat split; lia.
  - left. unfold try_except, modify_db. simpl. repeat split; lia.
Qed.

(** ** Finalization keeps the row consistent, bounded and its request *)

Lemma elapsed_ms_nonneg (a b : Z) : a <= b -> 0 <= elapsed_ms a b.
Proof. intros H. unfold elapsed_ms. apply Z.quot_pos; lia. Qed.

Lemma handler_status_terminal (exc : PyExc) :
  is_terminal (handler_status exc) = true /\ handler_status exc <> SUCCESS.
Proof. by destruct exc. Qed.

Lemma handler_timeout_message (exc : PyExc) :
  handler_status exc = TIMEOUT -> handler_message exc = "Request timed out".
Proof. by destruct exc. Qed.

Lemma record_success_consistent (e : FunctionExecution.t) (t d : Z) (r : HttpResponse) :
  0 <= d -> FunctionExecution.error_message e = "" ->
  execution_consistent (record_success e t d r).
Proof.
  intros Hd He. unfold execution_consistent, record_success; cbn.
  repeat split; try done; try discriminate. eexists; split; [done|lia].
Qed.

Lemma record_failure_consistent (e : FunctionExecution.t) (st : CallStatus)
  (t : Z) (m : string) (d : Z) :
  is_terminal st = true -> st <> SUCCESS -> (st = TIMEOUT -> m = "Request timed out") ->
  0 <= d -> execution_consistent (record_failure e st t m d).
Proof.
  intros Ht Hs Hto Hd. unfold execution_consistent, record_failure; cbn.
  repeat split; try done; try congruence.
  eexists; split; [done|lia].
Qed.

Lemma record_success_bounded (e : FunctionExecution.t) (t d : Z) (r : HttpResponse) :
  (String.length (FunctionExecution.error_message e) <= 1000)%nat ->
  execution_bounded (record_success e t d r).
Proof. intros He. split; [apply str_take_length|exact He]. Qed.

Lemma record_failure_bounded (e : FunctionExecution.t) (st : CallStatus)
  (t : Z) (m : string) (d : Z) :
  (String.length (FunctionExecution.response_body e) <= 10000)%nat ->
  execution_bounded (record_failure e st t (str_take 1000 m) d).
Proof. intros He. split; [exact He|apply str_take_length]. Qed.

Lemma record_success_snapshot (e : FunctionExecution.t) (t d : Z) (r : HttpResponse) :
  request_snapshot (record_success e t d r) = request_snapshot e.
Proof. reflexivity. Qed.

Lemma record_failure_snapshot (e : FunctionExecution.t) (st : CallStatus)
  (t : Z) (m : string) (d : Z) :
  request_snapshot (record_failure e st t m d) = request_snapshot e.
Proof. reflexivity. Qed.

(** The row [execute_function] stores and returns, in all three cases. *)
Lemma execute_function_row (w : World) (s : State) (config_id : Z) (c : FunctionConfig.t) :
  function_configs (db s) !! config_id = Some c ->
  let k := execution_rowid (db s) + 1 in
  let t := ticks s in
  let e0 := with_execution_id k (new_execution config_id (clock w t) c) in
  exists e' t' l,
    execute_function config_id w s = (store_row s k e' t' l, inr e') /\
    (t < t')%nat /\
    request_snapshot e' = request_snapshot e0 /\
    FunctionExecution.started_at e' = clock w t /\
    FunctionExecution.id e' = Some k /\
    execution_bounded e' /\
    (clock_monotone w -> execution_consistent e').
Proof.
  intros Hc k t e0. rewrite (execute_function_eq w s config_id c Hc).
  destruct (prepare_request _ c) as [req|].
  - destruct (transport w req) as [r|exc].
    + do 3 eexists. split; [reflexivity|].
      split; [lia|]. split; [apply record_success_snapshot|]. split; [reflexivity|]. split; [reflexivity|].
      split; [apply record_success_bounded; cbn; lia|].
      intros Hmono. apply record_success_consistent; [|reflexivity].
      apply elapsed_ms_nonneg, Hmono. lia.
    + do 3 eexists. split; [reflexivity|].
      split; [lia|]. split; [apply record_failure_snapshot|]. split; [reflexivity|]. split; [reflexivity|].
      split; [apply record_failure_bounded; cbn; lia|].
      intros Hmono. destruct (handler_status_terminal exc) as [Ht Hs].
      apply record_failure_consistent; [exact Ht|exact Hs| |].
      * intros Hto. rewrite (handler_timeout_message exc Hto). reflexivity.
      * apply elapsed_ms_nonneg, Hmono. lia.
  - do 3 eexists. split; [reflexivity|].
    split; [lia|]. split; [apply record_failure_snapshot|]. split; [reflexivity|]. split; [reflexivity|].
    split; [apply record_failure_bounded; cbn; lia|].
    intros Hmono. apply record_failure_consistent; [reflexivity|discriminate|discriminate|].
    apply elapsed_ms_nonneg, Hmono. lia.
Qed.

Lemma run_one_bounded (c : ServiceCall) (w : World) (s : State) :
  executions_bounded (db s) -> executions_bounded (db (run_one c w s).1).
Proof.
  intros Hb. destruct (run_call_cases c w s) as [(Heq & _ & _) | (k & cfg & Hc & ->)].
  - unfold executions_bounded. rewrite Heq. exact Hb.
  - destruct (execute_function_row w s k cfg Hc) as (e' & t' & l & -> & _ & _ & _ & _ & Hbd & _).
    unfold executions_bounded, store_row. cbn [db function_executions fst].
    apply map_Forall_insert_2; [exact Hbd|exact Hb].
Qed.

Lemma run_one_consistent (c : ServiceCall) (w : World) (s : State) :
  clock_monotone w -> executions_consistent w s -> executions_consistent w (run_one c w s).1.
Proof.
  intros Hmono Hs. destruct (run_call_cases c w s) as [(Heq & _ & Ht) | (k & cfg & Hc & ->)].
  - unfold executions_consistent. rewrite Heq.
    eapply map_Forall_impl; [exact Hs|]. intros i e [He Hle]. split; [exact He|].
    etrans; [exact Hle|]. by apply Hmono.
  - destruct (execute_function_row w s k cfg Hc)
      as (e' & t' & l & -> & Ht & _ & Hst & _ & _ & Hcons).
    unfold executions_consistent, store_row. cbn [db function_executions fst ticks].
    apply map_Forall_insert_2.
    + split; [by apply Hcons|]. rewrite Hst. apply Hmono. lia.
    + eapply map_Forall_impl; [exact Hs|]. intros i e [He Hle]. split; [exact He|].
      etrans; [exact Hle|]. apply Hmono. lia.
Qed.

Lemma run_one_snapshots (c : ServiceCall) (w : World) (s : State)
  (m0 : gmap Z FunctionExecution.t) :
  rowids_fresh (db s) /\ snapshots_kept m0 (db s) ->
  rowids_fresh (db (run_one c w s).1) /\ snapshots_kept m0 (db (run_one c w s).1).
Proof.
  intros [Hf Hk]. destruct (run_call_cases c w s) as [(Heq & Hid & _) | (k & cfg & Hc & ->)].
  - unfold rowids_fresh, snapshots_kept. rewrite Heq, Hid. split; [exact Hf|exact Hk].
  - destruct (execute_function_row w s k cfg Hc) as (e' & t' & l & -> & _).
    unfold rowids_fresh, snapshots_kept, store_row. cbn [db function_executions execution_rowid fst].
    split.
    + apply map_Forall_insert_2; [lia|].
      eapply map_Forall_impl; [exact Hf|]. intros i e Hi. cbn in Hi. lia.
    + eapply map_Forall_impl; [exact Hk|]. intros i e0 (e & He & Hsnap).
      exists e. split; [|exact Hsnap].
      rewrite lookup_insert_ne; [exact He|].
      specialize (Hf i e He). cbn in Hf. lia.
Qed.

(** ** C8: stored bodies and messages are capped *)

(** C8. Whatever the responses and errors the calls produce, every
    execution row stored after any sequence of service calls has a
    response body of at most 10,000 characters and an error message of at
    most 1,000 characters, provided the rows stored before did. *)
Theorem stored_executions_bounded (w : World) (cs : list ServiceCall) (s : State) :
  executions_bounded (db s) -> executions_bounded (db (run_calls cs w s).1).
Proof.
  apply (run_calls_ind (fun s => executions_bounded (db s)) w).
  intros c s'. apply run_one_bounded.
Qed.

Lemma stored_executions_bounded_witness :
  executions_bounded (db (sample_state "GET")) /\
  executions_bounded (db (run_calls sample_calls (fixed_world (inl not_found_response))
                            (sample_state "GET")).1).
Proof.
  assert (H : executions_bounded (db (sample_state "GET"))) by apply map_Forall_empty.
  split; [exact H|].
  exact (stored_executions_bounded (fixed_world (inl not_found_response)) sample_calls
           (sample_state "GET") H).
Defined.

(** ** C2: consistency of the stored executions *)

(** C2 (counterexample). A transport error whose message is empty (such as
    an [httpx.ReadError] raised with an empty message when the peer closes
    the connection) is recorded with status FAILED and an empty error
    message. *)
Lemma failed_execution_empty_message :
  match (execute_function 1 (fixed_world (inr (TransportError ""))) (sample_state "GET")).2 with
  | inr e => FunctionExecution.status e = FAILED /\ FunctionExecution.error_message e = ""
  | inl _ => False
  end.
Proof. vm_compute. auto. Qed.

(** [datetime.utcnow()] reads the wall clock, which can be set back: a
    clock that runs backwards during a call gives a negative duration. *)
Lemma backwards_clock_negative_duration :
  match (execute_function 1 (mkWorld (fun _ => inl not_found_response)
                               (fun i => - Z.of_nat i * 1000))
           (sample_state "GET")).2 with
  | inr e => FunctionExecution.status e = SUCCESS /\ FunctionExecution.duration_ms e = Some (-1)
  | inl _ => False
  end.
Proof. vm_compute. auto. Qed.

(** On a clock that does not run backwards, after any sequence of service
    calls every stored execution satisfies: a terminal status implies
    [completed_at] is present and [duration_ms] is present and
    non-negative; SUCCESS implies [response_status_code] is present and the
    error message is empty; TIMEOUT implies the error message is
    "Request timed out"; a non-terminal status implies the error message is
    empty.  The rows stored before must satisfy the same and have been
    started no later than the clock's current reading. *)
Theorem stored_executions_consistent (w : World) (cs : list ServiceCall) (s : State) :
  clock_monotone w -> executions_consistent w s ->
  map_Forall (fun _ e => execution_consistent e)
    (function_executions (db (run_calls cs w s).1)).
Proof.
  intros Hmono Hs.
  assert (H : executions_consistent w (run_calls cs w s).1).
  { revert Hs. apply (run_calls_ind (executions_consistent w) w).
    intros c s'. by apply run_one_consistent. }
  eapply map_Forall_impl; [exact H|]. intros i e [He _]. exact He.
Qed.

Lemma stored_executions_consistent_witness :
  clock_monotone (fixed_world (inr (TransportError "connection refused"))) /\
  executions_consistent (fixed_world (inr (TransportError "connection refused")))
    (sample_state "GET") /\
  map_Forall (fun _ e => execution_consistent e)
    (function_executions
       (db (run_calls sample_calls (fixed_world (inr (TransportError "connection refused")))
              (sample_state "GET")).1)).
Proof.
  assert (Hm : clock_monotone (fixed_world (inr (TransportError "connection refused")))).
  { intros i j Hij. simpl. lia. }
  assert (Hs : executions_consistent (fixed_world (inr (TransportError "connection refused")))
                 (sample_state "GET")) by apply map_Forall_empty.
  split; [exact Hm|]. split; [exact Hs|].
  exact (stored_executions_consistent _ sample_calls _ Hm Hs).
Defined.

(** ** C6: the request snapshot *)

(** C6. [execute_function] returns the execution whose request URL,
    method, headers and payload are those of the configuration when the
    call starts, stored under its id; after any later sequence of service
    calls (executions, which finalize rows, configuration edits and
    deletes) the row is still stored with the same four fields.  The
    database's row id counter must be above its stored keys. *)
Theorem execution_request_snapshot (w : World) (s : State) (config_id : Z)
  (c : FunctionConfig.t) (cs : list ServiceCall) :
  function_configs (db s) !! config_id = Some c ->
  rowids_fresh (db s) ->
  let '(s1, r) := execute_function config_id w s in
  exists e, r = inr e /\
    FunctionExecution.id e = Some (execution_rowid (db s) + 1) /\
    request_snapshot e = config_snapshot c /\
    exists e', function_executions (db (run_calls cs w s1).1)
                 !! (execution_rowid (db s) + 1) = Some e' /\
               request_snapshot e' = request_snapshot e.
Proof.
  intros Hc Hf.
  destruct (execute_function_row w s config_id c Hc)
    as (e & t' & l & Hrun & _ & Hsnap & _ & Hid & _ & _).
  rewrite Hrun. exists e. split; [done|]. split; [exact Hid|].
  split; [rewrite Hsnap; reflexivity|].
  assert (H : rowids_fresh (db (run_calls cs w (store_row s (execution_rowid (db s) + 1) e t' l)).1) /\
              snapshots_kept {[execution_rowid (db s) + 1 := e]}
                (db (run_calls cs w (store_row s (execution_rowid (db s) + 1) e t' l)).1)).
  { apply (run_calls_ind (fun s' => rowids_fresh (db s') /\
                                    snapshots_kept {[execution_rowid (db s) + 1 := e]} (db s')) w).
    - intros c' s'. apply run_one_snapshots.
    - unfold rowids_fresh, snapshots_kept, store_row. cbn [db function_executions execution_rowid].
      split.
      + apply map_Forall_insert_2; [lia|].
        eapply map_Forall_impl; [exact Hf|]. intros i x Hi. cbn in Hi. lia.
      + apply map_Forall_singleton. exists e. split; [|done]. by simplify_map_eq. }
  destruct H as [_ Hk]. apply map_Forall_singleton in Hk. exact Hk.
Qed.

Lemma execution_request_snapshot_witness :
  function_configs (db (sample_state "post")) !! 1 = Some (sample_config "post") /\
  rowids_fresh (db (sample_state "post")) /\
  (let '(s1, r) := execute_function 1 (fixed_world (inl not_found_response))
                     (sample_state "post") in
   exists e, r = inr e /\
     FunctionExecution.id e = Some (execution_rowid (db (sample_state "post")) + 1) /\
     request_snapshot e = config_snapshot (sample_config "post") /\
     exists e', function_executions
                  (db (run_calls sample_calls (fixed_world (inl not_found_response)) s1).1)
                  !! (execution_rowid (db (sample_state "post")) + 1) = Some e' /\
                request_snapshot e' = request_snapshot e).
Proof.
  assert (Hc : function_configs (db (sample_state "post")) !! 1 = Some (sample_config "post"))
    by reflexivity.
  assert (Hf : rowids_fresh (db (sample_state "post"))) by apply map_Forall_empty.
  split; [exact Hc|]. split; [exact Hf|].
  exact (execution_request_snapshot (fixed_world (inl not_found_response)) (sample_state "post")
           1 (sample_config "post") sample_calls Hc Hf).
Defined.

(** ** C9: active configurations, ordered *)

#[global] Instance config_order_total : Total config_order.
Proof.
  intros c1 c2. unfold config_order.
  destruct (Z.lt_trichotomy (FunctionConfig.display_order c1) (FunctionConfig.display_order c2))
    as [H|[H|H]]; [left; left; exact H| |right; left; exact H].
  destruct (total String.le (FunctionConfig.name c1) (FunctionConfig.name c2));
    [left|right]; right; split; auto.
Qed.

#[global] Instance config_order_trans : Transitive config_order.
Proof.
  intros c1 c2 c3. unfold config_order.
  intros [H12|[H12 N12]] [H23|[H23 N23]]; try (left; lia).
  right. split; [lia|]. etrans; eassumption.
Qed.

(** C9. [get_all_active] returns exactly the active configurations of the
    table (as a permutation of them, so none with [is_active = false]),
    ordered by [display_order] ascending with [name] ascending breaking
    ties. *)
Theorem get_all_active_sorted_active (d : Db) :
  get_all_active d ≡ₚ
    filter (fun c => FunctionConfig.is_active c = true) (snd <$> map_to_list (function_configs d)) /\
  StronglySorted config_order (get_all_active d) /\
  (forall c, c ∈ get_all_active d <->
     (exists k, function_configs d !! k = Some c) /\ FunctionConfig.is_active c = true).
Proof.
  unfold get_all_active. split; [apply merge_sort_Permutation|].
  split; [apply StronglySorted_merge_sort; typeclasses eauto|].
  intros c. rewrite merge_sort_Permutation, list_elem_of_filter, list_elem_of_fmap.
  split.
  - intros [Ha ([k x] & -> & Hin)]. apply elem_of_map_to_list in Hin. eauto.
  - intros [[k Hk] Ha]. split; [exact Ha|]. exists (k, c). split; [done|].
    by apply elem_of_map_to_list.
Qed.

Lemma sql_limit_elem {A} (n : Z) (l : list A) (x : A) : x ∈ sql_limit n l -> x ∈ l.
Proof.
  unfold sql_limit. destruct (n <? 0); [done|].
  intros Hx. apply elem_of_take in Hx as (i & Hi & _). by eapply list_elem_of_lookup_2.
Qed.

(** ** C10: the inner join of [get_recent_executions] *)

(** C10. Every summary returned by [get_recent_executions] comes from a
    stored execution whose configuration row exists, and carries that
    configuration's name; an execution whose configuration row is absent
    yields no summary (no placeholder, no error). *)
Theorem get_recent_executions_inner_join (limit : Z) (d : Db) :
  ids_are_keys d ->
  (forall sm, sm ∈ get_recent_executions limit d ->
     exists e c, function_executions d !! ExecutionSummary.id sm = Some e /\
       function_configs d !! FunctionExecution.function_config_id e = Some c /\
       ExecutionSummary.function_name sm = FunctionConfig.name c) /\
  (forall k e, function_executions d !! k = Some e ->
     function_configs d !! FunctionExecution.function_config_id e = None ->
     forall sm, sm ∈ get_recent_executions limit d -> ExecutionSummary.id sm <> k).
Proof.
  intros Hids.
  assert (Hjoin : forall sm, sm ∈ get_recent_executions limit d ->
     exists e c, function_executions d !! ExecutionSummary.id sm = Some e /\
       function_configs d !! FunctionExecution.function_config_id e = Some c /\
       ExecutionSummary.function_name sm = FunctionConfig.name c).
  { intros sm Hsm. unfold get_recent_executions in Hsm.
    apply list_elem_of_omap in Hsm as ([e name] & Hr & Hsum).
    apply sql_limit_elem in Hr as Hi.
    rewrite merge_sort_Permutation in Hi.
    unfold join_config_name in Hi. apply list_elem_of_omap in Hi as ([k e'] & Hin & Hj).
    apply elem_of_map_to_list in Hin.
    destruct (function_configs d !! FunctionExecution.function_config_id e') as [c|] eqn:Hc;
      [|discriminate].
    injection Hj as <- <-.
    unfold summarize in Hsum. destruct (FunctionExecution.id e') as [i'|] eqn:Hid; [|discriminate].
    injection Hsum as <-. cbn.
    pose proof (Hids k e' Hin) as Hk. cbn in Hk. rewrite Hid in Hk. injection Hk as ->.
    exists e', c. auto. }
  split; [exact Hjoin|].
  intros k e He Hnone sm Hsm Heq.
  destruct (Hjoin sm Hsm) as (e' & c & He' & Hc & _).
  rewrite Heq, He in He'. injection He' as <-. congruence.
Qed.

Lemma get_recent_executions_inner_join_witness :
  ids_are_keys orphan_db /\
  get_recent_executions 20 orphan_db =
    [ExecutionSummary.mk 1 "Test Function" RUNNING 5000 None None None false] /\
  ((forall sm, sm ∈ get_recent_executions 20 orphan_db ->
     exists e c, function_executions orphan_db !! ExecutionSummary.id sm = Some e /\
       function_configs orphan_db !! FunctionExecution.function_config_id e = Some c /\
       ExecutionSummary.function_name sm = FunctionConfig.name c) /\
   (forall k e, function_executions orphan_db !! k = Some e ->
     function_configs orphan_db !! FunctionExecution.function_config_id e = None ->
     forall sm, sm ∈ get_recent_executions 20 orphan_db -> ExecutionSummary.id sm <> k)).
Proof.
  assert (H : ids_are_keys orphan_db).
  { apply (bool_decide_unpack _). vm_compute. exact I. }
  split; [exact H|]. split; [vm_compute; reflexivity|].
  exact (get_recent_executions_inner_join 20 orphan_db H).
Defined.

(** ** C5: what [create] checks *)

Lemma if_nil_app (b : bool) (f : string) (l : list string) :
  (if b then [] else [f]) ++ l = [] <-> b = true /\ l = [].
Proof. destruct b; cbn; split; intros H; try done; by destruct H. Qed.

(** C5, refuted as stated: an empty name, an empty endpoint URL and the
    method "PATCH" pass the schema, and [create] stores the configuration. *)
Lemma create_accepts_empty_name :
  match create_from_input blank_input (fixed_world (inl not_found_response)) (sample_state "GET") with
  | (s', inr cfg) =>
      FunctionConfig.name cfg = "" /\ FunctionConfig.endpoint_url cfg = "" /\
      FunctionConfig.http_method cfg = "PATCH" /\
      function_configs (db s') !! 2 = Some cfg
  | (_, inl _) => False
  end.
Proof. vm_compute. repeat split. Qed.

(** C5, as the code behaves. The only validation is the schema's: the
    lengths of the text fields and [1 <= timeout_seconds <= 300] (an empty
    name or URL and any method of at most 10 characters pass). On a
    validation failure the error lists the offending fields and the state
    is unchanged; otherwise the configuration gets the next id, the time of
    its construction as [created_at] and a later reading of the clock as
    [updated_at], and is stored under its id. *)
Theorem create_validates_schema_only (w : World) (s : State) (d : FunctionConfigCreate.t) :
  (FunctionConfigCreate.validation_errors d = [] <->
     (String.length (FunctionConfigCreate.name d) <= 100)%nat /\
     (String.length (FunctionConfigCreate.description d) <= 500)%nat /\
     (String.length (FunctionConfigCreate.endpoint_url d) <= 500)%nat /\
     (String.length (FunctionConfigCreate.http_method d) <= 10)%nat /\
     1 <= FunctionConfigCreate.timeout_seconds d <= 300 /\
     (String.length (FunctionConfigCreate.button_color d) <= 20)%nat) /\
  match create_from_input d w s with
  | (s', inl e) =>
      FunctionConfigCreate.validation_errors d <> [] /\
      e = ValidationError (FunctionConfigCreate.validation_errors d) /\ s' = s
  | (s', inr cfg) =>
      FunctionConfigCreate.validation_errors d = [] /\
      cfg = FunctionConfig.mk (Some (config_rowid (db s) + 1))
              (FunctionConfigCreate.name d) (FunctionConfigCreate.description d)
              (FunctionConfigCreate.endpoint_url d) (FunctionConfigCreate.http_method d)
              (FunctionConfigCreate.headers d) (FunctionConfigCreate.payload d)
              (FunctionConfigCreate.timeout_seconds d) (FunctionConfigCreate.is_active d)
              (FunctionConfigCreate.button_color d) (FunctionConfigCreate.display_order d)
              (clock w (ticks s)) (clock w (S (S (ticks s)))) /\
      function_configs (db s') = <[config_rowid (db s) + 1 := cfg]> (function_configs (db s)) /\
      function_executions (db s') = function_executions (db s)
  end.
Proof.
  split.
  - unfold FunctionConfigCreate.validation_errors.
    rewrite !if_nil_app, !Nat.leb_le, andb_true_iff, !Z.leb_le.
    destruct (String.length (FunctionConfigCreate.button_color d) <=? 20)%nat eqn:Hb.
    + apply Nat.leb_le in Hb. tauto.
    + apply Nat.leb_nle in Hb. split; [intros (_ & _ & _ & _ & _ & H); discriminate|].
      intros (_ & _ & _ & _ & _ & H). lia.
  - unfold create_from_input.
    destruct (FunctionConfigCreate.validation_errors d) as [|err errs] eqn:E.
    + unfold create, bind, utcnow. cbn. auto.
    + unfold raise. cbn. auto.
Qed.

(** * Further properties of the services and their callers *)

(** ** Reads after writes *)

(** [FunctionConfigService.create] followed by [get_by_id] on the new id
    returns the created record; on a table whose keys are at most the row
    id counter, no existing configuration is overwritten. *)
Theorem create_then_get_by_id (w : World) (s : State) (d : FunctionConfigCreate.t) :
  config_rowids_fresh (db s) ->
  let k := config_rowid (db s) + 1 in
  match create_from_input d w s with
  | (s', inr cfg) =>
      FunctionConfig.id cfg = Some k /\
      get_by_id k w s' = (s', inr (Some cfg)) /\
      (forall k' c, function_configs (db s) !! k' = Some c ->
                    function_configs (db s') !! k' = Some c) /\
      config_rowids_fresh (db s') /\
      function_executions (db s') = function_executions (db s)
  | (s', inl _) => s' = s
  end.
Proof.
  intros Hfresh k. unfold create_from_input.
  destruct (FunctionConfigCreate.validation_errors d); [|reflexivity].
  unfold create, bind, utcnow, get_by_id, session_get_config. cbn.
  split; [reflexivity|]. split; [by simplify_map_eq|]. split; [|split; [|reflexivity]].
  - intros k' c Hc. pose proof (Hfresh k' c Hc) as Hle. cbn in Hle.
    rewrite lookup_insert_ne by (unfold k in *; lia). exact Hc.
  - apply map_Forall_insert_2; [cbn; lia|].
    eapply map_Forall_impl; [exact Hfresh|]. intros i x Hi. cbn in *. lia.
Qed.

Lemma create_then_get_by_id_witness :
  config_rowids_fresh (db (sample_state "GET")) /\
  match create_from_input ping_input (fixed_world (inl not_found_response)) (sample_state "GET") with
  | (s', inr cfg) =>
      FunctionConfig.id cfg = Some (config_rowid (db (sample_state "GET")) + 1) /\
      get_by_id (config_rowid (db (sample_state "GET")) + 1)
        (fixed_world (inl not_found_response)) s' = (s', inr (Some cfg)) /\
      (forall k' c, function_configs (db (sample_state "GET")) !! k' = Some c ->
                    function_configs (db s') !! k' = Some c) /\
      config_rowids_fresh (db s') /\
      function_executions (db s') = function_executions (db (sample_state "GET"))
  | (s', inl _) => s' = sample_state "GET"
  end.
Proof.
  assert (H : config_rowids_fresh (db (sample_state "GET"))).
  { apply (bool_decide_unpack _). vm_compute. exact I. }
  split; [exact H|].
  exact (create_then_get_by_id (fixed_world (inl not_found_response)) (sample_state "GET")
           ping_input H).
Defined.

(** [execute_function] writes only its own execution row: the returned
    record is what [get_execution_details] reads back under its id, the
    configurations table is untouched and every other execution row is
    unchanged.  When it raises, the state is unchanged. *)
Theorem execute_function_then_details (w : World) (s : State) (config_id : Z) :
  match execute_function config_id w s with
  | (s', inr e) =>
      exists k, FunctionExecution.id e = Some k /\
        get_execution_details k w s' = (s', inr (Some e)) /\
        function_configs (db s') = function_configs (db s) /\
        (forall k', k' <> k ->
           function_executions (db s') !! k' = function_executions (db s) !! k')
  | (s', inl _) => s' = s
  end.
Proof.
  destruct (function_configs (db s) !! config_id) as [c|] eqn:Hc.
  - destruct (execute_function_row w s config_id c Hc)
      as (e' & t' & l & Heq & _ & _ & _ & Hid & _ & _).
    rewrite Heq. exists (execution_rowid (db s) + 1). split; [exact Hid|].
    unfold get_execution_details, session_get_execution, store_row. cbn.
    split; [by simplify_map_eq|]. split; [reflexivity|].
    intros k' Hk'. by rewrite lookup_insert_ne by congruence.
  - unfold_monad. cbn. by rewrite Hc.
Qed.

(** [FunctionConfigService.delete] has three outcomes: [False] with the
    state unchanged when the id is absent; an [IntegrityError] with the
    state unchanged when some execution references the configuration; and
    otherwise [True] with exactly that configuration removed, so that
    [get_by_id] no longer finds it.  Executions are never removed. *)
Theorem delete_outcomes (w : World) (s : State) (config_id : Z) :
  match delete config_id w s with
  | (s', inr false) => function_configs (db s) !! config_id = None /\ s' = s
  | (s', inr true) =>
      is_Some (function_configs (db s) !! config_id) /\
      (forall k e, function_executions (db s) !! k = Some e ->
                   FunctionExecution.function_config_id e <> config_id) /\
      function_configs (db s') = base.delete config_id (function_configs (db s)) /\
      function_executions (db s') = function_executions (db s) /\
      get_by_id config_id w s' = (s', inr None)
  | (s', inl e) =>
      is_Some (function_configs (db s) !! config_id) /\
      (exists k ex, function_executions (db s) !! k = Some ex /\
                    FunctionExecution.function_config_id ex = config_id) /\
      e = IntegrityError "NOT NULL constraint failed: function_executions.function_config_id" /\
      s' = s
  end.
Proof.
  unfold delete, bind, session_get_config, ret, raise.
  destruct (function_configs (db s) !! config_id) as [c|] eqn:Hc; [|auto].
  cbn. destruct (references config_id (db s)) eqn:Hr.
  - unfold references in Hr. apply existsb_exists in Hr as ([k ex] & Hin & Hb).
    apply list_elem_of_In, elem_of_map_to_list in Hin.
    apply bool_decide_eq_true in Hb.
    split; [eauto|]. split; [|auto]. exists k, ex. auto.
  - split; [eauto|]. split; [|split; [reflexivity|split; [reflexivity|]]].
    + intros k e He Heq. unfold references in Hr.
      assert (existsb (fun '(_, e) => bool_decide (FunctionExecution.function_config_id e = config_id))
                (map_to_list (function_executions (db s))) = true) as Ht.
      { apply existsb_exists. exists (k, e). split.
        - by apply list_elem_of_In, elem_of_map_to_list.
        - by apply bool_decide_eq_true. }
      congruence.
    + unfold get_by_id, session_get_config. cbn. by rewrite lookup_delete_eq.
Qed.

(** ** [get_recent_executions]: limit and order *)

#[global] Instance newest_first_total : Total newest_first.
Proof. intros r1 r2. unfold newest_first. lia. Qed.

#[global] Instance newest_first_trans : Transitive newest_first.
Proof. intros r1 r2 r3. unfold newest_first. lia. Qed.

Lemma summarize_fields (r : FunctionExecution.t * string) (sm : ExecutionSummary.t) :
  summarize r = Some sm ->
  FunctionExecution.id r.1 = Some (ExecutionSummary.id sm) /\
  ExecutionSummary.started_at sm = FunctionExecution.started_at r.1 /\
  ExecutionSummary.status sm = FunctionExecution.status r.1 /\
  ExecutionSummary.response_status_code sm = FunctionExecution.response_status_code r.1 /\
  ExecutionSummary.success sm = summary_success r.1.
Proof.
  destruct r as [e n]. unfold summarize. destruct (FunctionExecution.id e) eqn:Hid; [|discriminate].
  intros H. injection H as <-. cbn. auto.
Qed.

Lemma StronglySorted_take {A} (R : relation A) (n : nat) (l : list A) :
  StronglySorted R l -> StronglySorted R (take n l).
Proof.
  revert l. induction n as [|n IH]; intros [|x l] H; cbn; try constructor.
  - inversion H as [|? ? Hs Hf]; subst. by apply IH.
  - inversion H as [|? ? Hs Hf]; subst. rewrite Forall_forall in Hf |- *.
    intros y Hy. apply Hf.
    apply elem_of_take in Hy as (i & Hi & _). by eapply list_elem_of_lookup_2.
Qed.

Lemma StronglySorted_omap_summarize (l : list (FunctionExecution.t * string)) :
  StronglySorted newest_first l ->
  StronglySorted (fun a b => ExecutionSummary.started_at b <= ExecutionSummary.started_at a)
    (omap summarize l).
Proof.
  induction l as [|x l IH]; intros H; cbn; [constructor|].
  inversion H as [|? ? Hs Hf]; subst.
  destruct (summarize x) as [y|] eqn:Hy; [|by apply IH].
  constructor; [by apply IH|].
  apply Forall_forall. intros z Hz. apply list_elem_of_omap in Hz as (r & Hr & Hz).
  rewrite Forall_forall in Hf. specialize (Hf r Hr).
  destruct (summarize_fields _ _ Hy) as (_ & Hy1 & _).
  destruct (summarize_fields _ _ Hz) as (_ & Hz1 & _).
  unfold newest_first in Hf. lia.
Qed.

Lemma length_omap_le {A B} (f : A -> option B) (l : list A) :
  (length (omap f l) <= length l)%nat.
Proof. induction l as [|x l IH]; cbn; [lia|]. destruct (f x); cbn; lia. Qed.

Lemma sql_limit_length {A} (n : Z) (l : list A) :
  0 <= n -> (length (sql_limit n l) <= Z.to_nat n)%nat.
Proof.
  intros Hn. unfold sql_limit. destruct (n <? 0) eqn:E; [apply Z.ltb_lt in E; lia|].
  rewrite length_take. lia.
Qed.

Lemma StronglySorted_sql_limit {A} (R : relation A) (n : Z) (l : list A) :
  StronglySorted R l -> StronglySorted R (sql_limit n l).
Proof. intros H. unfold sql_limit. destruct (n <? 0); [exact H|]. by apply StronglySorted_take. Qed.

Lemma length_join_config_name (d : Db) :
  (length (join_config_name d) <= map_size (function_executions d))%nat.
Proof.
  unfold join_config_name. etrans; [apply length_omap_le|].
  by rewrite length_map_to_list.
Qed.

(** [get_recent_executions limit] returns summaries newest first: their
    [started_at] never increases along the list.  A limit [n >= 0] returns
    at most [n] of them; a negative limit (SQLite's [LIMIT -1]) sets no
    bound and returns what a limit of the number of stored executions
    returns, i.e. every joined row. *)
Theorem get_recent_executions_newest_first (limit : Z) (d : Db) :
  (0 <= limit -> Z.of_nat (length (get_recent_executions limit d)) <= limit) /\
  (limit < 0 ->
     get_recent_executions limit d =
       get_recent_executions (Z.of_nat (map_size (function_executions d))) d) /\
  StronglySorted (fun a b => ExecutionSummary.started_at b <= ExecutionSummary.started_at a)
    (get_recent_executions limit d).
Proof.
  unfold get_recent_executions. split; [|split].
  - intros Hn. pose proof (length_omap_le summarize
      (sql_limit limit (merge_sort newest_first (join_config_name d)))) as H1.
    pose proof (sql_limit_length limit (merge_sort newest_first (join_config_name d)) Hn). lia.
  - intros Hn. unfold sql_limit.
    destruct (limit <? 0) eqn:E; [|apply Z.ltb_ge in E; lia].
    destruct (Z.of_nat (map_size (function_executions d)) <? 0) eqn:E2;
      [apply Z.ltb_lt in E2; lia|].
    rewrite Nat2Z.id, take_ge; [reflexivity|].
    rewrite (Permutation_length (merge_sort_Permutation _ _)).
    apply length_join_config_name.
  - apply StronglySorted_omap_summarize, StronglySorted_sql_limit.
    apply StronglySorted_merge_sort; typeclasses eauto.
Qed.

(** ** [seed_sample_data] *)

Lemma build_configs_valid (l : list FunctionConfigCreate.t) (w : World) (s : State) :
  Forall (fun d => FunctionConfigCreate.validation_errors d = []) l ->
  build_configs l w s = (s, inr l).
Proof.
  intros Hl. induction Hl as [|d l' Hd _ IH]; [reflexivity|].
  cbn [build_configs]. rewrite Hd. unfold bind. rewrite IH. reflexivity.
Qed.

Lemma sample_configs_valid :
  Forall (fun d => FunctionConfigCreate.validation_errors d = []) sample_configs.
Proof. unfold sample_configs. repeat constructor; vm_compute; reflexivity. Qed.

Lemma create_spec (d : FunctionConfigCreate.t) (w : World) (s : State) :
  exists cfg,
    (create d w s =
      (mkState (mkDb (<[config_rowid (db s) + 1 := cfg]> (function_configs (db s)))
                     (function_executions (db s)) (config_rowid (db s) + 1)
                     (execution_rowid (db s)))
               (S (S (S (ticks s)))) (sent s), inr cfg)) /\
    FunctionConfig.id cfg = Some (config_rowid (db s) + 1) /\
    FunctionConfig.name cfg = FunctionConfigCreate.name d /\
    FunctionConfig.is_active cfg = FunctionConfigCreate.is_active d /\
    FunctionConfig.display_order cfg = FunctionConfigCreate.display_order d.
Proof.
  unfold create, bind, utcnow. cbn [db ticks sent]. eexists. split; [reflexivity|].
  repeat split.
Qed.

Lemma create_each_cons (d : FunctionConfigCreate.t) (l : list FunctionConfigCreate.t)
    (w : World) (s : State) :
  create_each (d :: l) w s = create_each l w (fst (create d w s)).
Proof.
  destruct (create_spec d w s) as (c & Hc & _).
  cbn [create_each]. unfold bind at 1. unfold try_except, bind, ret. cbv beta.
  rewrite Hc. reflexivity.
Qed.

(** [seed_sample_data] never raises: the three samples pass validation and
    are stored under the next three ids, active, in display order 1, 2, 3.
    It does not look for existing rows, so every run adds three more. *)
Theorem seed_sample_data_adds_three (w : World) (s : State) :
  let k := config_rowid (db s) in
  match seed_sample_data w s with
  | (s', inr _) =>
      exists c1 c2 c3,
        function_configs (db s') =
          <[k + 3 := c3]> (<[k + 2 := c2]> (<[k + 1 := c1]> (function_configs (db s)))) /\
        config_rowid (db s') = k + 3 /\
        function_executions (db s') = function_executions (db s) /\
        map FunctionConfig.id [c1; c2; c3] = [Some (k + 1); Some (k + 2); Some (k + 3)] /\
        map FunctionConfig.name [c1; c2; c3] =
          ["JSONPlaceholder Posts"; "Create Post"; "HTTPBin Echo"] /\
        map FunctionConfig.is_active [c1; c2; c3] = [true; true; true] /\
        map FunctionConfig.display_order [c1; c2; c3] = [1; 2; 3]
  | (_, inl _) => False
  end.
Proof.
  intros k. unfold seed_sample_data, bind at 1. cbv beta.
  rewrite (build_configs_valid _ w s sample_configs_valid). cbv beta iota.
  unfold sample_configs. rewrite !create_each_cons.
  destruct (create_spec (FunctionConfigCreate.mk "JSONPlaceholder Posts" "Fetch sample posts from JSONPlaceholder API"
     "https://jsonplaceholder.typicode.com/posts" "GET" ∅ [] 10 true "primary" 1) w s)
    as (c1 & H1 & I1 & N1 & A1 & O1).
  rewrite H1. cbn [fst db config_rowid function_configs function_executions execution_rowid ticks sent].
  match goal with |- context [create ?d w (mkState ?x ?y ?z)] =>
    destruct (create_spec d w (mkState x y z)) as (c2 & H2 & I2 & N2 & A2 & O2); rewrite H2 end.
  cbn [fst db config_rowid function_configs function_executions execution_rowid ticks sent] in *.
  match goal with |- context [create ?d w ?s2] =>
    destruct (create_spec d w s2) as (c3 & H3 & I3 & N3 & A3 & O3); rewrite H3 end.
  cbn [fst db config_rowid function_configs function_executions execution_rowid ticks sent
       create_each ret] in *.
  exists c1, c2, c3. subst k.
  replace (config_rowid (db s) + 1 + 1) with (config_rowid (db s) + 2) in * by lia.
  replace (config_rowid (db s) + 2 + 1) with (config_rowid (db s) + 3) in * by lia.
  split; [reflexivity|]. split; [reflexivity|]. split; [reflexivity|].
  cbn [map]. rewrite I1, I2, I3, N1, N2, N3, A1, A2, A3, O1, O2, O3. repeat split.
Qed.

(** ** Duration display *)

Lemma mul_lt_cancel (q x y : Z) : 0 < q -> q * x < q * y -> x < y.
Proof. intros. nia. Qed.

Lemma round_half_even_unique (p q n : Z) :
  0 < q -> q * (2 * n - 1) < 2 * p < q * (2 * n + 1) -> round_half_even p q = n.
Proof.
  intros Hq [H1 H2]. unfold round_half_even.
  pose proof (Z.div_mod p q ltac:(lia)) as Hd. pose proof (Z.mod_pos_bound p q Hq) as Hm.
  set (a := p / q) in *. set (r := p mod q) in *.
  destruct (2 * r <? q) eqn:E1; [apply Z.ltb_lt in E1|apply Z.ltb_ge in E1].
  - assert (2 * a < 2 * n + 1) by (apply (mul_lt_cancel q); lia).
    assert (2 * n - 1 < 2 * a + 1) by (apply (mul_lt_cancel q); lia). lia.
  - destruct (q <? 2 * r) eqn:E2; [apply Z.ltb_lt in E2|apply Z.ltb_ge in E2].
    + assert (2 * a + 1 < 2 * n + 1) by (apply (mul_lt_cancel q); lia).
      assert (2 * n - 1 < 2 * a + 2) by (apply (mul_lt_cancel q); lia). lia.
    + assert (2 * a + 1 < 2 * n + 1) by (apply (mul_lt_cancel q); lia).
      assert (2 * n - 1 < 2 * a + 1) by (apply (mul_lt_cancel q); lia). lia.
Qed.

Lemma round_half_even_bound (p q : Z) :
  0 < q -> q * (2 * round_half_even p q - 1) <= 2 * p <= q * (2 * round_half_even p q + 1).
Proof.
  intros Hq. unfold round_half_even.
  pose proof (Z.div_mod p q ltac:(lia)) as Hd. pose proof (Z.mod_pos_bound p q Hq) as Hm.
  set (a := p / q) in *. set (r := p mod q) in *.
  destruct (2 * r <? q) eqn:E1; [apply Z.ltb_lt in E1|apply Z.ltb_ge in E1]; [nia|].
  destruct (q <? 2 * r) eqn:E2; [apply Z.ltb_lt in E2|apply Z.ltb_ge in E2]; [nia|].
  destruct (Z.even a); nia.
Qed.

Lemma floor_log2_ratio_le (p q : Z) : floor_log2_ratio p q <= Z.log2 p - Z.log2 q.
Proof. unfold floor_log2_ratio. destruct ratio_ge_pow2; lia. Qed.

Lemma floor_log2_ratio_ge (p q : Z) : Z.log2 p - Z.log2 q - 1 <= floor_log2_ratio p q.
Proof. unfold floor_log2_ratio. destruct ratio_ge_pow2; lia. Qed.

(** [ExecutionSummary.duration_display] shows a duration of at least one
    second as the number of milliseconds rounded to the nearest tenth of a
    second, followed by "s" (e.g. 12345 as "12.3s"), for every duration below
    10^15 ms that is not exactly halfway between two tenths.  Below 1000 ms it
    shows "<ms>ms", and with no duration it shows "N/A". *)
Theorem duration_display_tenths (ms : Z) :
  duration_display None = Some "N/A" /\
  (ms < 1000 -> duration_display (Some ms) = Some (pretty ms +:+ "ms")) /\
  (1000 <= ms < 10 ^ 15 -> ms mod 100 <> 50 ->
   duration_display (Some ms) =
     Some ((pretty ((ms + 50) / 100 / 10) +:+ "." +:+ pretty ((ms + 50) / 100 mod 10)) +:+ "s")).
Proof.
  split; [reflexivity|]. split.
  { intros Hlt. unfold duration_display. apply Z.ltb_lt in Hlt. by rewrite Hlt. }
  intros Hms Htie. unfold duration_display.
  destruct (ms <? 1000) eqn:Hlt; [apply Z.ltb_lt in Hlt; lia|].
  unfold seconds_display, true_div.
  set (G := floor_log2_ratio ms 1000).
  assert (Hlog1000 : Z.log2 1000 = 9) by reflexivity.
  assert (HL1 : 9 <= Z.log2 ms).
  { rewrite <- Hlog1000. apply Z.log2_le_mono. lia. }
  assert (HL2 : Z.log2 ms <= 49).
  { assert (Z.log2 ms < 50); [|lia]. apply Z.log2_lt_pow2; [lia|].
    change (2 ^ 50) with 1125899906842624. lia. }
  assert (HG1 : -1 <= G) by (pose proof (floor_log2_ratio_ge ms 1000); lia).
  assert (HG2 : G <= 40) by (pose proof (floor_log2_ratio_le ms 1000); lia).
  rewrite Z.max_l by lia.
  destruct (G - 52 <=? 0) eqn:He; [|apply Z.leb_gt in He; lia].
  replace (- (G - 52)) with (52 - G) by lia.
  set (A := 2 ^ (52 - G)).
  assert (HA : 2 ^ 12 <= A).
  { unfold A. apply Z.pow_le_mono_r; lia. }
  set (M := round_half_even (ms * A) 1000).
  pose proof (round_half_even_bound (ms * A) 1000 ltac:(lia)) as HM. fold M in HM.
  destruct ((0 <=? G - 52) && _) eqn:Hov.
  { apply andb_true_iff in Hov as [Hov _]. apply Z.leb_le in Hov. lia. }
  unfold format_1f.
  destruct (G - 52 <? 0) eqn:Hneg; [|apply Z.ltb_ge in Hneg; lia].
  replace (- (G - 52)) with (52 - G) by lia. fold A.
  set (N := (ms + 50) / 100).
  assert (HN : 100 * (2 * N - 1) < 2 * ms < 100 * (2 * N + 1)).
  { pose proof (Z.div_mod (ms + 50) 100 ltac:(lia)) as Hd.
    pose proof (Z.mod_pos_bound (ms + 50) 100 ltac:(lia)) as Hb.
    pose proof (Z.div_mod ms 100 ltac:(lia)) as Hd'.
    pose proof (Z.mod_pos_bound ms 100 ltac:(lia)) as Hb'.
    fold N in Hd. lia. }
  rewrite (round_half_even_unique (10 * M) A N); [reflexivity|lia|].
  assert (HN' : 100 * (2 * N - 1) + 2 <= 2 * ms <= 100 * (2 * N + 1) - 2) by lia.
  nia.
Qed.

(** The executions table of the history page shows a duration of 0 ms as
    "N/A", where [ExecutionSummary.duration_display] shows "0ms"; on every
    other duration (and on none) the two agree. *)
Theorem history_duration_matches_display (d : option Z) :
  history_duration_display d =
    if bool_decide (d = Some 0) then Some "N/A" else duration_display d.
Proof.
  destruct d as [ms|]; [|reflexivity]. unfold history_duration_display, duration_display.
  destruct (Z.eq_dec ms 0) as [->|Hne].
  - reflexivity.
  - rewrite bool_decide_false by congruence.
    apply Z.eqb_neq in Hne. rewrite Hne. cbn. reflexivity.
Qed.

(** ** [_truncate_url] *)

Lemma str_take_length_eq (n : nat) (s : string) :
  (n <= String.length s)%nat -> String.length (str_take n s) = n.
Proof.
  revert s. induction n as [|n IH]; intros [|c s] H; cbn in *; try lia.
  rewrite IH; lia.
Qed.

(** With a bound of at least 3, [_truncate_url] returns the URL itself when
    it fits, and otherwise its first [max_length - 3] characters followed
    by "...": exactly [max_length] characters. *)
Theorem truncate_url_bounded (url : string) (max_length : Z) :
  3 <= max_length ->
  (Z.of_nat (String.length url) <= max_length -> truncate_url url max_length = url) /\
  (max_length < Z.of_nat (String.length url) ->
     truncate_url url max_length = str_take (Z.to_nat (max_length - 3)) url +:+ "..." /\
     Z.of_nat (String.length (truncate_url url max_length)) = max_length).
Proof.
  intros H3. unfold truncate_url. split.
  - intros Hle. apply Z.leb_le in Hle. by rewrite Hle.
  - intros Hgt. destruct (Z.of_nat (String.length url) <=? max_length) eqn:E;
      [apply Z.leb_le in E; lia|].
    unfold py_slice_to. destruct (0 <=? max_length - 3) eqn:E3; [|apply Z.leb_gt in E3; lia].
    split; [reflexivity|]. rewrite length_append, str_take_length_eq by lia. cbn. lia.
Qed.

Lemma truncate_url_bounded_witness :
  3 <= 40 /\
  ((Z.of_nat (String.length "https://example.test/x") <= 40 ->
    truncate_url "https://example.test/x" 40 = "https://example.test/x") /\
   (40 < Z.of_nat (String.length "https://example.test/x") ->
     truncate_url "https://example.test/x" 40 =
       str_take (Z.to_nat (40 - 3)) "https://example.test/x" +:+ "..." /\
     Z.of_nat (String.length (truncate_url "https://example.test/x" 40)) = 40)).
Proof. split; [lia|]. apply truncate_url_bounded. lia. Defined.

(** A bound below 3 does not bound [_truncate_url]: for a longer URL the
    slice [url[:max_length - 3]] counts from the end, and the result has
    [max(0, len(url) + max_length - 3) + 3] characters, more than
    [max_length]. *)
Theorem truncate_url_small_bound (url : string) (max_length : Z) :
  max_length < 3 -> max_length < Z.of_nat (String.length url) ->
  Z.of_nat (String.length (truncate_url url max_length)) =
    Z.max 0 (Z.of_nat (String.length url) + max_length - 3) + 3 /\
  max_length < Z.of_nat (String.length (truncate_url url max_length)).
Proof.
  intros H3 Hgt. unfold truncate_url.
  destruct (Z.of_nat (String.length url) <=? max_length) eqn:E; [apply Z.leb_le in E; lia|].
  unfold py_slice_to. destruct (0 <=? max_length - 3) eqn:E3; [apply Z.leb_le in E3; lia|].
  rewrite length_append, str_take_length_eq by lia. cbn.
  rewrite Nat2Z.inj_add. lia.
Qed.

Lemma truncate_url_small_bound_witness :
  0 < 3 /\ 0 < Z.of_nat (String.length "https://example.test/x") /\
  Z.of_nat (String.length (truncate_url "https://example.test/x" 0)) =
    Z.max 0 (Z.of_nat (String.length "https://example.test/x") + 0 - 3) + 3 /\
  0 < Z.of_nat (String.length (truncate_url "https://example.test/x" 0)).
Proof.
  split; [lia|]. split; [vm_compute; reflexivity|].
  apply truncate_url_small_bound; [lia|vm_compute; reflexivity].
Defined.

(** ** The dashboard's execute handler *)

(** A click on a function whose [executing_functions] flag is set does
    nothing.  Otherwise the handler runs [execute_function] once (the
    service state afterwards is exactly its result, whether it raised or
    not), shows two notifications, and clears the flag again. *)
Theorem dashboard_execute_guard (config_id : Z) (w : World) (s : State) (ds : Dashboard) :
  let '(s', ds') := dashboard_execute_function config_id w s ds in
  (executing_functions ds !! config_id = Some true -> s' = s /\ ds' = ds) /\
  (executing_functions ds !! config_id <> Some true ->
     s' = (execute_function config_id w s).1 /\
     executing_functions ds' = <[config_id:=false]> (executing_functions ds) /\
     length (notifications ds') = (length (notifications ds) + 2)%nat).
Proof.
  unfold dashboard_execute_function, get_by_id, session_get_config.
  destruct (executing_functions ds !! config_id) as [[|]|] eqn:Hf;
    cbv beta iota zeta delta [default from_option id].
  - split; [auto|congruence].
  - destruct (function_configs (db s) !! config_id);
    destruct (execute_function config_id w s) as [s2 [e|ex]];
      [| destruct (result_notification _ ex) as [msg ty] | | destruct (result_notification _ ex) as [msg ty]];
      cbn; (split; [congruence|intros _]); rewrite ?length_app; cbn;
      (split; [reflexivity|split; [by rewrite insert_insert_eq|lia]]).
  - destruct (function_configs (db s) !! config_id);
    destruct (execute_function config_id w s) as [s2 [e|ex]];
      [| destruct (result_notification _ ex) as [msg ty] | | destruct (result_notification _ ex) as [msg ty]];
      cbn; (split; [congruence|intros _]); rewrite ?length_app; cbn;
      (split; [reflexivity|split; [by rewrite insert_insert_eq|lia]]).
Qed.

(** The last notification of the handler reports the outcome: for a
    missing configuration it is the negative
    "❌ Function <id> execution failed: Function configuration <id> not found";
    for an existing one it is positive exactly when the returned execution
    has status SUCCESS, a warning when it timed out, and otherwise negative,
    carrying the execution's error message. *)
Theorem dashboard_execute_notification (config_id : Z) (w : World) (s : State)
  (ds : Dashboard) :
  executing_functions ds !! config_id <> Some true ->
  let '(s', ds') := dashboard_execute_function config_id w s ds in
  match function_configs (db s) !! config_id with
  | None =>
      s' = s /\
      last (notifications ds') =
        Some ("❌ Function " +:+ pretty config_id +:+
              " execution failed: Function configuration " +:+ pretty config_id +:+
              " not found", "negative")
  | Some c =>
      exists e, (execute_function config_id w s).2 = inr e /\
        last (notifications ds') = Some (result_notification (FunctionConfig.name c) e) /\
        ((result_notification (FunctionConfig.name c) e).2 = "positive" <->
           FunctionExecution.status e = SUCCESS)
  end.
Proof.
  intros Hnot. unfold dashboard_execute_function.
  assert (Hd : default false (executing_functions ds !! config_id) = false).
  { destruct (executing_functions ds !! config_id) as [[|]|]; cbn; congruence. }
  rewrite Hd. unfold get_by_id, session_get_config.
  destruct (function_configs (db s) !! config_id) as [c|] eqn:Hc.
  - destruct (execute_function_row w s config_id c Hc) as (e' & t' & l & Heq & _).
    rewrite Heq. cbn.
    destruct (result_notification (FunctionConfig.name c) e') as [msg ty] eqn:Hr.
    cbn. exists e'. split; [reflexivity|]. rewrite last_app. cbn. split; [by rewrite Hr|].
    rewrite Hr. cbn. unfold result_notification in Hr.
    destruct (FunctionExecution.status e'); injection Hr as <- <-; split; congruence.
  - rewrite (execute_function_not_found w s config_id Hc). cbn.
    split; [reflexivity|]. rewrite last_app. reflexivity.
Qed.

Lemma dashboard_execute_notification_witness :
  executing_functions (mkDashboard ∅ []) !! 7 <> Some true /\
  let '(s', ds') := dashboard_execute_function 7 (fixed_world (inl not_found_response))
                      (sample_state "GET") (mkDashboard ∅ []) in
  match function_configs (db (sample_state "GET")) !! 7 with
  | None =>
      s' = sample_state "GET" /\
      last (notifications ds') =
        Some ("❌ Function " +:+ pretty 7 +:+
              " execution failed: Function configuration " +:+ pretty 7 +:+
              " not found", "negative")
  | Some c =>
      exists e, (execute_function 7 (fixed_world (inl not_found_response))
                   (sample_state "GET")).2 = inr e /\
        last (notifications ds') = Some (result_notification (FunctionConfig.name c) e) /\
        ((result_notification (FunctionConfig.name c) e).2 = "positive" <->
           FunctionExecution.status e = SUCCESS)
  end.
Proof.
  assert (H : executing_functions (mkDashboard ∅ []) !! 7 <> Some true)
    by (cbn [executing_functions]; rewrite lookup_empty; congruence).
  split; [exact H|].
  exact (dashboard_execute_notification 7 (fixed_world (inl not_found_response))
           (sample_state "GET") (mkDashboard ∅ []) H).
Defined.

(** ** The configuration form *)

Lemma py_lstrip_all_space (s : string) : str_forallb py_isspace s = true -> py_lstrip s = "".
Proof.
  induction s as [|c s IH]; cbn; [done|].
  intros H. apply andb_true_iff in H as [Hc Hs]. rewrite Hc. by apply IH.
Qed.

Lemma py_strip_all_space (s : string) : str_forallb py_isspace s = true -> py_strip s = "".
Proof. intros H. unfold py_strip. by rewrite py_lstrip_all_space. Qed.

Lemma build_config_data_inr (inp : FormInput)
  (h p : json) (d : FunctionConfigCreate.t) :
  build_config_data inp h p = inr d ->
  FunctionConfigCreate.validation_errors d = [] /\
  FunctionConfigCreate.name d = py_strip (name_value inp) /\
  FunctionConfigCreate.description d = py_strip (description_value inp) /\
  FunctionConfigCreate.endpoint_url d = py_strip (endpoint_value inp) /\
  FunctionConfigCreate.http_method d = select_or (method_value inp) "POST" /\
  FunctionConfigCreate.is_active d = true /\
  FunctionConfigCreate.button_color d = select_or (color_value inp) "primary".
Proof.
  unfold build_config_data.
  destruct (py_int (timeout_value inp)) as [|t]; [discriminate|].
  destruct (py_int (order_value inp)) as [|o]; [discriminate|].
  destruct (headers_of_json h) as [hs|], (payload_of_json p) as [ps|]; try discriminate.
  destruct (FunctionConfigCreate.validation_errors _) eqn:E; [|discriminate].
  intros H. injection H as <-. split; [exact E|]. cbn. repeat split.
Qed.

(** The save handler of the configuration form shows exactly one
    notification.  An empty name or (then) an empty URL is refused with its
    message; more generally, whenever the notification is negative nothing
    is stored.  The configuration is stored only when the notification is
    positive, through [create] on a validated input whose name is the
    stripped name field. *)
Theorem save_function_outcomes (json_loads : string -> string + json) (inp : FormInput)
  (w : World) (s : State) :
  let '(s', notes) := save_function json_loads inp w s in
  (name_value inp = "" -> s' = s /\ notes = [("Function name is required", "negative")]) /\
  (name_value inp <> "" -> endpoint_value inp = "" ->
     s' = s /\ notes = [("Endpoint URL is required", "negative")]) /\
  ((exists msg, notes = [(msg, "negative")] /\ s' = s) \/
   (exists msg d, notes = [(msg, "positive")] /\
      FunctionConfigCreate.validation_errors d = [] /\
      FunctionConfigCreate.name d = py_strip (name_value inp) /\
      s' = (create d w s).1)).
Proof.
  unfold save_function.
  destruct (String.eqb (name_value inp) "") eqn:En.
  { apply String.eqb_eq in En. split; [auto|]. split; [congruence|]. left; eauto. }
  apply String.eqb_neq in En.
  destruct (String.eqb (endpoint_value inp) "") eqn:Ee.
  { apply String.eqb_eq in Ee. split; [congruence|]. split; [auto|]. left; eauto. }
  apply String.eqb_neq in Ee.
  destruct (parse_headers json_loads (headers_value inp)) as [m|hj];
    [split; [congruence|]; split; [congruence|]; left; eauto|].
  destruct (parse_payload json_loads (payload_value inp)) as [m|pj];
    [split; [congruence|]; split; [congruence|]; left; eauto|].
  destruct (build_config_data inp hj pj) as [m|d] eqn:Hb;
    [split; [congruence|]; split; [congruence|]; left; eauto|].
  destruct (build_config_data_inr inp hj pj d Hb) as (Hv & Hn & _).
  destruct (create_spec d w s) as (c & Hc & _). rewrite Hc.
  split; [congruence|]. split; [congruence|].
  right. eexists _, d. rewrite Hc. eauto.
Qed.

(** A successful save stores the configuration under the next id with the
    stripped name, description and URL, the selected method ("POST" when
    none is selected) and the selected color ("primary" by default),
    active.  The non-empty checks look at the raw fields, so a name of
    whitespace only passes them and is stored as the empty name. *)
Theorem save_function_stores_stripped (json_loads : string -> string + json)
  (inp : FormInput) (w : World) (s s' : State) (msg : string) :
  save_function json_loads inp w s = (s', [(msg, "positive")]) ->
  exists cfg,
    function_configs (db s') = <[config_rowid (db s) + 1 := cfg]> (function_configs (db s)) /\
    FunctionConfig.name cfg = py_strip (name_value inp) /\
    FunctionConfig.description cfg = py_strip (description_value inp) /\
    FunctionConfig.endpoint_url cfg = py_strip (endpoint_value inp) /\
    FunctionConfig.http_method cfg = select_or (method_value inp) "POST" /\
    FunctionConfig.button_color cfg = select_or (color_value inp) "primary" /\
    FunctionConfig.is_active cfg = true /\
    msg = "✅ Function " +:+ dquote +:+ FunctionConfig.name cfg +:+ dquote +:+
          " saved successfully!" /\
    name_value inp <> "" /\ endpoint_value inp <> "" /\
    (str_forallb py_isspace (name_value inp) = true -> FunctionConfig.name cfg = "").
Proof.
  unfold save_function.
  destruct (String.eqb (name_value inp) "") eqn:En; [congruence|].
  apply String.eqb_neq in En.
  destruct (String.eqb (endpoint_value inp) "") eqn:Ee; [congruence|].
  apply String.eqb_neq in Ee.
  destruct (parse_headers json_loads (headers_value inp)) as [m|hj]; [congruence|].
  destruct (parse_payload json_loads (payload_value inp)) as [m|pj]; [congruence|].
  destruct (build_config_data inp hj pj) as [m|d] eqn:Hb; [congruence|].
  destruct (build_config_data_inr inp hj pj d Hb)
    as (_ & Hn & Hds & Hu & Hm & Ha & Hcol).
  unfold create, bind, utcnow. cbv beta iota zeta. intros H. injection H as <- <-.
  eexists. split; [reflexivity|].
  cbn [FunctionConfig.name FunctionConfig.description FunctionConfig.endpoint_url
       FunctionConfig.http_method FunctionConfig.button_color FunctionConfig.is_active].
  rewrite Hn, Hds, Hu, Hm, Ha, Hcol.
  repeat split; auto. intros Hsp. by apply py_strip_all_space.
Qed.

Lemma save_function_stores_stripped_witness :
  save_function empty_object_loads blank_name_form (fixed_world (inl not_found_response))
    (sample_state "GET") =
    ((save_function empty_object_loads blank_name_form (fixed_world (inl not_found_response))
       (sample_state "GET")).1,
     [("✅ Function " +:+ dquote +:+ "" +:+ dquote +:+ " saved successfully!", "positive")]) /\
  exists cfg,
    function_configs (db (save_function empty_object_loads blank_name_form
                            (fixed_world (inl not_found_response)) (sample_state "GET")).1) =
      <[config_rowid (db (sample_state "GET")) + 1 := cfg]>
        (function_configs (db (sample_state "GET"))) /\
    FunctionConfig.name cfg = py_strip (name_value blank_name_form) /\
    FunctionConfig.description cfg = py_strip (description_value blank_name_form) /\
    FunctionConfig.endpoint_url cfg = py_strip (endpoint_value blank_name_form) /\
    FunctionConfig.http_method cfg = select_or (method_value blank_name_form) "POST" /\
    FunctionConfig.button_color cfg = select_or (color_value blank_name_form) "primary" /\
    FunctionConfig.is_active cfg = true /\
    "✅ Function " +:+ dquote +:+ "" +:+ dquote +:+ " saved successfully!" =
      "✅ Function " +:+ dquote +:+ FunctionConfig.name cfg +:+ dquote +:+
      " saved successfully!" /\
    name_value blank_name_form <> "" /\ endpoint_value blank_name_form <> "" /\
    (str_forallb py_isspace (name_value blank_name_form) = true -> FunctionConfig.name cfg = "").
Proof.
  assert (H : save_function empty_object_loads blank_name_form (fixed_world (inl not_found_response))
                (sample_state "GET") =
              ((save_function empty_object_loads blank_name_form
                  (fixed_world (inl not_found_response)) (sample_state "GET")).1,
               [("✅ Function " +:+ dquote +:+ "" +:+ dquote +:+ " saved successfully!",
                 "positive")])).
  { vm_compute. reflexivity. }
  split; [exact H|].
  exact (save_function_stores_stripped empty_object_loads blank_name_form
           (fixed_world (inl not_found_response)) (sample_state "GET") _ _ H).
Defined.

(** ** The request [execute_function] sends *)

(** For a configuration whose upper-cased method is GET, POST, PUT or
    DELETE, [execute_function] sends exactly one request: to the
    configuration's URL, with its headers and timeout and the upper-cased
    method.  The request carries no JSON body when the method is GET or
    DELETE or the payload is empty, and otherwise carries the payload. *)
Theorem execute_function_request (w : World) (s : State) (config_id : Z) (c : FunctionConfig.t) :
  function_configs (db s) !! config_id = Some c ->
  str_upper (FunctionConfig.http_method c) ∈ ["GET"; "POST"; "PUT"; "DELETE"] ->
  exists req,
    sent (execute_function config_id w s).1 = sent s ++ [req] /\
    rq_method req = str_upper (FunctionConfig.http_method c) /\
    rq_url req = FunctionConfig.endpoint_url c /\
    rq_headers req = FunctionConfig.headers c /\
    rq_timeout req = FunctionConfig.timeout_seconds c /\
    (rq_json req = None <->
       str_upper (FunctionConfig.http_method c) = "GET" \/
       str_upper (FunctionConfig.http_method c) = "DELETE" \/
       FunctionConfig.payload c = []) /\
    (forall p, rq_json req = Some p -> p = FunctionConfig.payload c).
Proof.
  intros Hc Hm. rewrite (execute_function_eq w s config_id c Hc). cbv zeta.
  destruct (prepare_request_supported _ c Hm) as (j & Hp & Hj1 & Hj2). rewrite Hp.
  destruct (transport w _); eexists; (split; [reflexivity|]);
    cbn [rq_method rq_url rq_headers rq_timeout rq_json];
    exact (conj eq_refl (conj eq_refl (conj eq_refl (conj eq_refl (conj Hj1 Hj2))))).
Qed.

Lemma execute_function_request_witness :
  function_configs (db (sample_state "post")) !! 1 = Some (sample_config "post") /\
  (str_upper (FunctionConfig.http_method (sample_config "post"))
     ∈ ["GET"; "POST"; "PUT"; "DELETE"]) /\
  exists req,
    sent (execute_function 1 (fixed_world (inl not_found_response)) (sample_state "post")).1 =
      sent (sample_state "post") ++ [req] /\
    rq_method req = str_upper (FunctionConfig.http_method (sample_config "post")) /\
    rq_url req = FunctionConfig.endpoint_url (sample_config "post") /\
    rq_headers req = FunctionConfig.headers (sample_config "post") /\
    rq_timeout req = FunctionConfig.timeout_seconds (sample_config "post") /\
    (rq_json req = None <->
       str_upper (FunctionConfig.http_method (sample_config "post")) = "GET" \/
       str_upper (FunctionConfig.http_method (sample_config "post")) = "DELETE" \/
       FunctionConfig.payload (sample_config "post") = []) /\
    (forall p, rq_json req = Some p -> p = FunctionConfig.payload (sample_config "post")).
Proof.
  assert (H1 : function_configs (db (sample_state "post")) !! 1 = Some (sample_config "post")).
  { reflexivity. }
  assert (H2 : str_upper (FunctionConfig.http_method (sample_config "post"))
                 ∈ ["GET"; "POST"; "PUT"; "DELETE"]).
  { cbn. right. left. }
  split; [exact H1|]. split; [exact H2|].
  exact (execute_function_request (fixed_world (inl not_found_response)) (sample_state "post") 1
           (sample_config "post") H1 H2).
Defined.
